(** * scroll.go: the scroll (cursor) service of the elastic client

  A shallow embedding of [ScrollService] and of its three operations
  [Do], [GetFirstPage] and [GetNextPage], followed by the properties of
  the request that each operation builds and of the result it returns.

  Layout:
  - [GoLib]: the few functions of Go's standard library that the file
    calls ([strings.Join], [fmt.Sprintf], [url.Values], [url.QueryEscape]);
  - requests, responses, the result envelope, errors, the observable
    world and the monad the two fetch operations run in;
  - section [Scroll]: the service itself, over the collaborators that
    live in other files of the package (class [Package]);
  - how a trace is read (requests constructed and sent, bodies closed);
  - [Mock]: a canned client, used to run the operations on examples;
  - the properties: the requests and results first, then failures,
    effects and what each fetch reads of the configuration. *)

From Stdlib Require Import ZArith Ascii String List Lia.
From stdpp Require Import base decidable option list gmap strings pretty sorting.

Local Open Scope string_scope.
Local Open Scope Z_scope.

(* ===================================================================== *)
(** ** Go standard library *)
(* ===================================================================== *)

Module GoLib.

(** The bytes of a string, in order. *)
Definition chars (s : string) : list ascii := list_ascii_of_string s.

(** [strings.Join(elems, sep)]. *)
Fixpoint Join (elems : list string) (sep : string) : string :=
  match elems with
  | [] => ""
  | [e] => e
  | e :: rest => e +:+ sep +:+ Join rest sep
  end.

(** [fmt.Sprintf("%v", b)] for a [bool]. *)
Definition Sprintf_v (b : bool) : string :=
  if b then "true" else "false".

(** [fmt.Sprintf("%d", n)] for an [int]: decimal digits, with a leading
    minus sign for a negative number. *)
Definition Sprintf_d (n : Z) : string := pretty n.

(** *** net/url *)

(** [url.Values] is [map[string][]string]. *)
Abbreviation Values := (gmap string (list string)).

(** [make(url.Values)]. *)
Definition make_Values : Values := ∅.

(** [v.Set(key, value)]: replaces whatever the key held by the single
    value. *)
Definition Set_ (key value : string) (v : Values) : Values :=
  <[key := [value]]> v.

(** [len(v)]. *)
Definition len_Values (v : Values) : nat := size v.

Definition is_alnum (c : ascii) : bool :=
  let n := N_of_ascii c in
  ((48 <=? n) && (n <=? 57) || (65 <=? n) && (n <=? 90)
   || (97 <=? n) && (n <=? 122))%N.

(** [shouldEscape(c, encodeQueryComponent)]: everything but the
    unreserved characters of RFC 3986 is escaped in a query component. *)
Definition shouldEscape (c : ascii) : bool :=
  if is_alnum c then false
  else match c with
       | "-" | "_" | "." | "~" => false
       | _ => true
       end%char.

Definition upperhex (n : N) : ascii :=
  match String.get (N.to_nat n) "0123456789ABCDEF" with
  | Some c => c
  | None => "0"%char
  end.

(** [url.QueryEscape]: a space becomes [+], an escaped byte becomes
    [%XX] in upper-case hexadecimal. *)
Fixpoint QueryEscape (s : string) : string :=
  match s with
  | EmptyString => EmptyString
  | String c rest =>
      if shouldEscape c then
        if Ascii.eqb c " " then String "+" (QueryEscape rest)
        else
          let n := N_of_ascii c in
          String "%" (String (upperhex (N.shiftr n 4))
                        (String (upperhex (N.land n 15)) (QueryEscape rest)))
      else String c (QueryEscape rest)
  end.

(** The order [slices.Sort] puts strings in: byte-wise lexicographic. *)
Definition string_le (a b : string) : Prop := String.leb a b = true.

#[global] Instance string_le_dec : RelDecision string_le.
Proof. intros a b. unfold string_le. apply _. Defined.

(** The keys of the map, sorted. *)
Definition sorted_keys (v : Values) : list string :=
  merge_sort string_le (map fst (map_to_list v)).

(** The escaped [key=value] pairs of the map, keys sorted and the values
    of a key in their order. *)
Definition pairs (v : Values) : list string :=
  flat_map
    (fun k =>
       let keyEscaped := QueryEscape k in
       map (fun x => keyEscaped +:+ "=" +:+ QueryEscape x)
           (default [] (v !! k)))
    (sorted_keys v).

(** [v.Encode()]: the pairs joined by [&]. *)
Definition Encode (v : Values) : string := Join (pairs v) "&".

End GoLib.

Import GoLib.


(* ===================================================================== *)
(** ** Requests, responses and the result envelope *)
(* ===================================================================== *)

(** A JSON-compatible value, what [Query.Source()] returns as
    [interface{}] and what a request body is marshalled from. *)
#[local] Unset Elimination Schemes.
Inductive Json : Type :=
| JNull
| JBool (b : bool)
| JNumber (n : Z)
| JString (s : string)
| JArray (elems : list Json)
| JObject (fields : list (string * Json)).
#[local] Set Elimination Schemes.

(** The body of an outgoing request: none yet, the JSON encoding of a
    [map[string]interface{}], or a plain string. *)
Inductive Body : Type :=
| NoBody
| BodyJson (data : gmap string Json)
| BodyString (body : string).

(** Modelled from the spec: the [Request] type of the package (a
    [http.Request]) is not in scroll.go. It carries the method and URL
    given to [NewRequest] and the body set afterwards. *)
Record Request : Type := mkRequest {
  Method : string;
  URL : string;
  ReqBody : Body
}.

(** Modelled from the spec: [Request.SetBodyJson], which scroll.go calls
    and another file defines; the body becomes the JSON object. *)
Definition SetBodyJson (req : Request) (data : gmap string Json) : Request :=
  {| Method := Method req; URL := URL req; ReqBody := BodyJson data |}.

(** Modelled from the spec: [Request.SetBodyString]; the body becomes the
    raw string, with no JSON structure around it. *)
Definition SetBodyString (req : Request) (body : string) : Request :=
  {| Method := Method req; URL := URL req; ReqBody := BodyString body |}.

(** A [http.Response]: a status and the bytes of the body. *)
Record Response : Type := mkResponse {
  StatusCode : Z;
  RespBody : string
}.

(** The types scroll.go takes from elsewhere and never looks into:
    a matched-document record, the [Query] interface, the error values
    that the transport, the status classifier and the JSON decoder
    produce, and the state of the remote end. *)
Class Domain : Type := {
  SearchHit : Type;
  Query : Type;
  Fault : Type;
  Net : Type
}.

Section Envelope.
Context {D : Domain}.

(** Modelled from the spec: the hits container of the envelope, with the
    two fields scroll.go reads ([TotalHits], an [int64], and [Hits]). *)
Record SearchHits : Type := mkSearchHits {
  SearchHits_TotalHits : Z;
  SearchHits_Hits : list SearchHit
}.

(** Modelled from the spec: the response envelope. [Hits] is a pointer
    and may be nil. *)
Record SearchResult : Type := mkSearchResult {
  SearchResult_ScrollId : string;
  SearchResult_Hits : option SearchHits
}.

(** Go's [error] values that can come out of the service: its own two
    sentinels, which are package-level variables, and whatever a
    collaborator reported. *)
Inductive error : Type :=
| ErrNoScrollId
| EOS
| Foreign (f : Fault).

(** What a fetch returns: Go's pair of a [*SearchResult] and an [error],
    either component possibly nil. *)
Definition Outcome : Type := option SearchResult * option error.

(** What the outside can observe of a call, in the order it happens. *)
Inductive Event : Type :=
| EvNewRequest (method urls : string)   (* a request was constructed *)
| EvDo (req : Request)                   (* a request went to the transport *)
| EvStdout (out : string)                (* fmt.Printf *)
| EvLog (out : string)                   (* log.Printf *)
| EvClose (res : Response).              (* the body of res is closed *)

Record World : Type := mkWorld {
  net : Net;
  trace : list Event
}.

(** [s.client]: request construction, which may fail, and the
    [http.Client] [c], whose [Do] talks to the remote end. *)
Record Client : Type := mkClient {
  NewRequest : string -> string -> Fault + Request;
  c_Do : Request -> Net -> (Fault + Response) * Net
}.

(** *** The monad of a function body

    A computation either falls through with a value ([inr]) or has
    executed a [return] ([inl]); the world is threaded through. *)
Definition Proc (R A : Type) : Type := World -> (R + A) * World.

#[export] Instance Proc_ret {R} : MRet (Proc R) :=
  fun A (a : A) w => (inr a, w).

#[export] Instance Proc_bind {R} : MBind (Proc R) :=
  fun A B (k : A -> Proc R B) (m : Proc R A) w =>
    match m w with
    | (inl r, w') => (inl r, w')
    | (inr a, w') => k a w'
    end.

(** [return r]. *)
Definition Return {R A} (r : R) : Proc R A := fun w => (inl r, w).

(** Records an observable event. *)
Definition emit {R} (e : Event) : Proc R unit :=
  fun w => (inr tt, {| net := net w; trace := trace w ++ [e] |}).

(** [if cond { body }]. *)
Definition when {R} (cond : bool) (body : Proc R unit) : Proc R unit :=
  if cond then body else mret tt.

(** [x, err := f(); if err != nil { return nil, err }]. *)
Definition try {A} (x : Fault + A) : Proc Outcome A :=
  match x with
  | inl err => Return (None, Some (Foreign err))
  | inr a => mret a
  end.

(** [defer e]: [e] happens when the rest of the body is left, whichever
    way. *)
Definition defer {R A} (e : Event) (rest : Proc R A) : Proc R A :=
  fun w =>
    let '(x, w') := rest w in
    (x, {| net := net w'; trace := trace w' ++ [e] |}).

(** Calling a function whose body is [p]. *)
Definition call {R} (p : Proc R R) (w : World) : R * World :=
  match p w with
  | (inl r, w') => (r, w')
  | (inr r, w') => (r, w')
  end.

(** [s.client.c.Do(req)]. *)
Definition Do_ (cl : Client) (req : Request) : Proc Outcome (Fault + Response) :=
  fun w =>
    let '(x, n') := c_Do cl req (net w) in
    (inr x, {| net := n'; trace := trace w ++ [EvDo req] |}).

(** [s.client.NewRequest(method, urls)]. *)
Definition NewRequest_ (cl : Client) (method urls : string)
  : Proc Outcome (Fault + Request) :=
  _ ← emit (EvNewRequest method urls);
  mret (NewRequest cl method urls).

End Envelope.

(* ===================================================================== *)
(** ** The collaborators of scroll.go *)
(* ===================================================================== *)

(** Functions and constants that scroll.go uses and that other files of
    the package, or Go's libraries, define. *)
Class Package {D : Domain} : Type := {
  (** [Query.Source()], the serialized predicate *)
  Source : Query -> Json;
  (** [NewMatchAllQuery()] *)
  NewMatchAllQuery : Query;
  (** the normalisation of a name that goes into the path *)
  cleanPathString : string -> string;
  (** the keep-alive sent when the caller set none *)
  defaultKeepAlive : string;
  (** the status classifier: [nil] for a success status *)
  checkResponse : Response -> option Fault;
  (** [json.NewDecoder(res.Body).Decode(searchResult)] into a fresh
      [SearchResult] *)
  Decode : string -> Fault + SearchResult;
  (** [httputil.DumpRequestOut(req, true)] *)
  DumpRequestOut : Request -> string;
  (** the text [httputil.DumpResponse(res, true)] renders *)
  DumpResponse : Response -> string
}.

(* ===================================================================== *)
(** ** ScrollService *)
(* ===================================================================== *)

Section Scroll.
Context {D : Domain} {P : Package}.

(** [size] is a [*int]: nil until [Size] is called. [query] is an
    interface value and may be nil. *)
Record ScrollService : Type := mkScrollService {
  client : Client;
  indices : list string;
  types : list string;
  keepAlive : string;
  query : option Query;
  size : option Z;
  pretty : bool;
  debug : bool;
  scrollId : string
}.

Definition NewScrollService (client : Client) : ScrollService :=
  {| client := client;
     indices := [];
     types := [];
     keepAlive := "";
     query := Some NewMatchAllQuery;
     size := None;
     pretty := false;
     debug := false;
     scrollId := "" |}.

Definition Index (index : string) (s : ScrollService) : ScrollService :=
  {| client := client s; indices := indices s ++ [index]; types := types s;
     keepAlive := keepAlive s; query := query s; size := size s;
     pretty := pretty s; debug := debug s; scrollId := scrollId s |}.

Definition Indices (indices' : list string) (s : ScrollService) : ScrollService :=
  {| client := client s; indices := indices s ++ indices'; types := types s;
     keepAlive := keepAlive s; query := query s; size := size s;
     pretty := pretty s; debug := debug s; scrollId := scrollId s |}.

Definition Type_ (typ : string) (s : ScrollService) : ScrollService :=
  {| client := client s; indices := indices s; types := types s ++ [typ];
     keepAlive := keepAlive s; query := query s; size := size s;
     pretty := pretty s; debug := debug s; scrollId := scrollId s |}.

Definition Types (types' : list string) (s : ScrollService) : ScrollService :=
  {| client := client s; indices := indices s; types := types s ++ types';
     keepAlive := keepAlive s; query := query s; size := size s;
     pretty := pretty s; debug := debug s; scrollId := scrollId s |}.

(** [Scroll] is an alias for [KeepAlive]. *)
Definition Scroll (keepAlive' : string) (s : ScrollService) : ScrollService :=
  {| client := client s; indices := indices s; types := types s;
     keepAlive := keepAlive'; query := query s; size := size s;
     pretty := pretty s; debug := debug s; scrollId := scrollId s |}.

Definition KeepAlive (keepAlive' : string) (s : ScrollService) : ScrollService :=
  {| client := client s; indices := indices s; types := types s;
     keepAlive := keepAlive'; query := query s; size := size s;
     pretty := pretty s; debug := debug s; scrollId := scrollId s |}.

(** The method [Query]; the argument is an interface value, possibly
    nil. *)
Definition Query_ (query' : option Query) (s : ScrollService) : ScrollService :=
  {| client := client s; indices := indices s; types := types s;
     keepAlive := keepAlive s; query := query'; size := size s;
     pretty := pretty s; debug := debug s; scrollId := scrollId s |}.

Definition Pretty (pretty' : bool) (s : ScrollService) : ScrollService :=
  {| client := client s; indices := indices s; types := types s;
     keepAlive := keepAlive s; query := query s; size := size s;
     pretty := pretty'; debug := debug s; scrollId := scrollId s |}.


Definition Size (size' : Z) (s : ScrollService) : ScrollService :=
  {| client := client s; indices := indices s; types := types s;
     keepAlive := keepAlive s; query := query s; size := Some size';
     pretty := pretty s; debug := debug s; scrollId := scrollId s |}.

Definition ScrollId (scrollId' : string) (s : ScrollService) : ScrollService :=
  {| client := client s; indices := indices s; types := types s;
     keepAlive := keepAlive s; query := query s; size := size s;
     pretty := pretty s; debug := debug s; scrollId := scrollId' |}.

(** *** GetFirstPage *)

(** [for _, x := range names { part = append(part, cleanPathString(x)) }]
    starting from the empty slice. *)
Definition cleanAll (names : list string) : list string :=
  fold_left (fun part x => (part ++ [cleanPathString x])%list) names [].

(** The path: lines 120 to 141, [urls] up to and including the search
    suffix. *)
Definition firstPagePath (s : ScrollService) : string :=
  let urls := "/" in
  let indexPart := cleanAll (indices s) in
  let urls :=
    if (0 <? length indexPart)%nat then urls +:+ Join indexPart "," else urls in
  let typesPart := cleanAll (types s) in
  let urls :=
    if (0 <? length typesPart)%nat then urls +:+ "/" +:+ Join typesPart ","
    else urls in
  urls +:+ "/_search".

(** The parameters: lines 144 to 156. *)
Definition firstPageParams (s : ScrollService) : Values :=
  let params := make_Values in
  let params := Set_ "search_type" "scan" params in
  let params :=
    if pretty s then Set_ "pretty" (Sprintf_v (pretty s)) params else params in
  let params :=
    if decide (keepAlive s <> "") then Set_ "scroll" (keepAlive s) params
    else Set_ "scroll" defaultKeepAlive params in
  let params :=
    match size s with
    | Some n => if 0 <? n then Set_ "size" (Sprintf_d n) params else params
    | None => params
    end in
  params.

(** The string given to [NewRequest]. *)
Definition firstPageURL (s : ScrollService) : string :=
  let urls := firstPagePath s in
  let params := firstPageParams s in
  if (0 <? len_Values params)%nat then urls +:+ "?" +:+ Encode params
  else urls.

(** The body: lines 168 to 173. *)
Definition firstPageBody (s : ScrollService) : gmap string Json :=
  let body : gmap string Json := ∅ in
  match query s with
  | Some q => <["query" := Source q]> body
  | None => body
  end.

Definition newline : string := String (ascii_of_nat 10) EmptyString.

(** [httputil.DumpResponse(res, true)] at work: it reads the body to its
    end, closes it, puts a copy of the bytes in its place for the decoder
    and renders the response. *)
Definition DumpResponse_ (res : Response) : Proc Outcome string :=
  _ ← emit (EvClose res);
  mret (DumpResponse res).

(** [if err := checkResponse(res); err != nil { return nil, err }]. *)
Definition check (res : Response) : Proc Outcome unit :=
  match checkResponse res with
  | Some err => Return (None, Some (Foreign err))
  | None => mret tt
  end.

Definition GetFirstPage_body (s : ScrollService) : Proc Outcome Outcome :=
  let urls := firstPageURL s in
  req ← NewRequest_ (client s) "POST" urls ≫= try;
  let body := firstPageBody s in
  let req := SetBodyJson req body in
  _ ← when (debug s) (emit (EvStdout (DumpRequestOut req +:+ newline)));
  res ← Do_ (client s) req ≫= try;
  _ ← check res;
  defer (EvClose res)
    (_ ← when (debug s)
           (out ← DumpResponse_ res; emit (EvStdout (out +:+ newline)));
     searchResult ← try (Decode (RespBody res));
     Return (Some searchResult, None)).

Definition GetFirstPage (s : ScrollService) (w : World) : Outcome * World :=
  call (GetFirstPage_body s) w.

(** *** GetNextPage *)

(** The parameters: lines 214 to 222. *)
Definition nextPageParams (s : ScrollService) : Values :=
  let params := make_Values in
  let params :=
    if pretty s then Set_ "pretty" (Sprintf_v (pretty s)) params else params in
  let params :=
    if decide (keepAlive s <> "") then Set_ "scroll" (keepAlive s) params
    else Set_ "scroll" defaultKeepAlive params in
  params.

Definition nextPageURL (s : ScrollService) : string :=
  let urls := "/_search/scroll" in
  let params := nextPageParams s in
  urls +:+ "?" +:+ Encode params.

(** Line 260, on the pointer [searchResult]. *)
Definition isLastPage (searchResult : option SearchResult) : bool :=
  match searchResult with
  | None => true
  | Some r =>
      match SearchResult_Hits r with
      | None => true
      | Some hits =>
          (length (SearchHits_Hits hits) =? 0)%nat
          || (SearchHits_TotalHits hits =? 0)
      end
  end.

Definition GetNextPage_body (s : ScrollService) : Proc Outcome Outcome :=
  if decide (scrollId s = "") then Return (None, Some ErrNoScrollId)
  else
    let urls := nextPageURL s in
    req ← NewRequest_ (client s) "POST" urls ≫= try;
    let req := SetBodyString req (scrollId s) in
    _ ← when (debug s) (emit (EvLog (DumpRequestOut req +:+ newline)));
    res ← Do_ (client s) req ≫= try;
    _ ← check res;
    defer (EvClose res)
      (_ ← when (debug s)
             (out ← DumpResponse_ res; emit (EvLog (out +:+ newline)));
       searchResult ← try (Decode (RespBody res));
       if isLastPage (Some searchResult) then Return (None, Some EOS)
       else Return (Some searchResult, None)).

Definition GetNextPage (s : ScrollService) (w : World) : Outcome * World :=
  call (GetNextPage_body s) w.

(** *** Do *)

Definition Do (s : ScrollService) (w : World) : Outcome * World :=
  if decide (scrollId s = "") then GetFirstPage s w
  else GetNextPage s w.

(** *** Requests and exchanges *)

(** The request [GetFirstPage] hands to the transport, when [NewRequest]
    makes one. *)
Definition firstPageRequest (s : ScrollService) : Fault + Request :=
  match NewRequest (client s) "POST" (firstPageURL s) with
  | inl err => inl err
  | inr req => inr (SetBodyJson req (firstPageBody s))
  end.

(** The request [GetNextPage] hands to the transport. *)
Definition nextPageRequest (s : ScrollService) : Fault + Request :=
  match NewRequest (client s) "POST" (nextPageURL s) with
  | inl err => inl err
  | inr req => inr (SetBodyString req (scrollId s))
  end.

(** In world [w] the transport answers [req], the answer passes the
    status check and its body decodes to the envelope [r]. *)
Definition Decodes (cl : Client) (req : Request) (w : World)
    (r : SearchResult) : Prop :=
  exists res n',
    c_Do cl req (net w) = (inr res, n')
    /\ checkResponse res = None
    /\ Decode (RespBody res) = inr r.

Definition firstPageDecodes (s : ScrollService) (w : World)
    (r : SearchResult) : Prop :=
  exists req, firstPageRequest s = inr req /\ Decodes (client s) req w r.

Definition nextPageDecodes (s : ScrollService) (w : World)
    (r : SearchResult) : Prop :=
  exists req, nextPageRequest s = inr req /\ Decodes (client s) req w r.

(** The end-of-stream condition in the words of the specification: the
    envelope is absent, or its hits container is absent, or the hits
    sequence is empty, or the total-hits counter is zero. *)
Definition EndOfStream_spec (searchResult : option SearchResult) : Prop :=
  searchResult = None
  \/ (exists r, searchResult = Some r /\ SearchResult_Hits r = None)
  \/ (exists r hits, searchResult = Some r /\ SearchResult_Hits r = Some hits
                     /\ SearchHits_Hits hits = [])
  \/ (exists r hits, searchResult = Some r /\ SearchResult_Hits r = Some hits
                     /\ SearchHits_TotalHits hits = 0).

(** [GetFirstPage], run in [w], first has a POST request constructed
    for [urls], and the request [NewRequest] builds for [urls], if it
    builds one, is what goes to the transport in that run, with the JSON
    body set. *)
Definition FirstPageRequestFor (s : ScrollService) (w : World)
    (urls : string) : Prop :=
  exists rest,
    trace (snd (GetFirstPage s w))
    = (trace w ++ EvNewRequest "POST" urls :: rest)%list
    /\ forall req,
         NewRequest (client s) "POST" urls = inr req ->
         In (EvDo (SetBodyJson req (firstPageBody s))) rest.

(** The same for [GetNextPage], whose request carries the cursor handle
    as its body. *)
Definition NextPageRequestFor (s : ScrollService) (w : World)
    (urls : string) : Prop :=
  exists rest,
    trace (snd (GetNextPage s w))
    = (trace w ++ EvNewRequest "POST" urls :: rest)%list
    /\ forall req,
         NewRequest (client s) "POST" urls = inr req ->
         In (EvDo (SetBodyString req (scrollId s))) rest.


End Scroll.

(* ===================================================================== *)
(** ** Reading a trace *)
(* ===================================================================== *)

Section Observations.
Context {D : Domain}.

(** The requests that went to the transport, in order. *)
Definition issued (t : list Event) : list Request :=
  flat_map (fun e => match e with EvDo req => [req] | _ => [] end) t.



(** The world after one more event. *)
Definition after (w : World) (e : Event) : World :=
  {| net := net w; trace := trace w ++ [e] |}.

End Observations.

(* ===================================================================== *)
(** ** A canned client *)
(* ===================================================================== *)

(** A stand-in for the rest of the package and for the server, to run
    the service on concrete inputs: hits are document ids, a query is its
    own source, the remote end is the queue of responses it will give,
    and the decoder knows the few bodies the scenarios use. *)
Module Mock.

Definition domain : Domain :=
  {| SearchHit := string; Query := Json; Fault := string; Net := list Response |}.

Definition envelope (total : Z) (ids : list string) : @SearchResult domain :=
  @mkSearchResult domain "abc" (Some (@mkSearchHits domain total ids)).

Definition decode (body : string) : string + @SearchResult domain :=
  if decide (body = "three") then inr (envelope 3 ["1"; "2"; "3"])
  else if decide (body = "drained") then inr (envelope 3 [])
  else if decide (body = "zero") then inr (envelope 0 [])
  else if decide (body = "stale") then inr (envelope 0 ["1"])
  else if decide (body = "bare") then
    inr (@mkSearchResult domain "" None)
  else inl "invalid character".

Definition package : @Package domain :=
  {| Source := fun q : @Query domain => q;
     NewMatchAllQuery := JObject [("match_all", JObject [])];
     cleanPathString := QueryEscape;
     defaultKeepAlive := "5m";
     checkResponse := fun res =>
       if (200 <=? StatusCode res) && (StatusCode res <=? 299) then None
       else Some "unexpected status";
     Decode := decode;
     DumpRequestOut := fun req => Method req +:+ " " +:+ URL req;
     DumpResponse := fun res => RespBody res |}.

Definition client : @Client domain :=
  @mkClient domain
    (fun method urls =>
       inr {| Method := method; URL := urls; ReqBody := NoBody |})
    (fun _ (pending : list Response) =>
       match pending with
       | [] => (inl "connection refused", [])
       | res :: rest => (inr res, rest)
       end).

Definition ok (body : string) : Response :=
  {| StatusCode := 200; RespBody := body |}.

(** A world whose server will answer with the given responses and where
    nothing has happened yet. *)
Definition world (pending : list Response) : @World domain :=
  @mkWorld domain pending [].

(** [NewScrollService(client)], nothing configured. *)
Definition fresh : @ScrollService domain :=
  @NewScrollService domain package client.

(** Collection logs, keep-alive of one minute, pages of fifty. *)
Definition logs : @ScrollService domain :=
  Size 50 (KeepAlive "1m" (Index "logs" fresh)).

(** The same service once the caller has threaded the handle in. *)
Definition resumed : @ScrollService domain := ScrollId "abc" logs.

(** Two collections, one with a space in its name, and two categories. *)
Definition targeted : @ScrollService domain :=
  Types ["a"; "b"] (Indices ["logs"; "my idx"] fresh).

(** A client that cannot build a request. *)
Definition unreachable : @Client domain :=
  @mkClient domain
    (fun _ _ => inl "missing protocol scheme")
    (@c_Do domain client).

(** A service on that client, holding a handle. *)
Definition stranded : @ScrollService domain :=
  ScrollId "abc" (@NewScrollService domain package unreachable).


(** A response with a failing status. *)
Definition failed (body : string) : Response :=
  {| StatusCode := 500; RespBody := body |}.




End Mock.

(* ===================================================================== *)
(** ** Properties of the library functions *)
(* ===================================================================== *)

Lemma append_assoc (a b c : string) : (a +:+ b) +:+ c = a +:+ (b +:+ c).
Proof.
  induction a as [|x a IH]; [reflexivity|].
  change (String x ((a +:+ b) +:+ c) = String x (a +:+ (b +:+ c))).
  now rewrite IH.
Qed.

Lemma chars_app (a b : string) : chars (a +:+ b) = (chars a ++ chars b)%list.
Proof.
  unfold chars. induction a as [|c a IH]; simpl; [reflexivity|].
  now rewrite IH.
Qed.

(** A character of a joined string comes from the separator or from one
    of the elements. *)
Lemma chars_Join (elems : list string) (sep : string) (c : ascii) :
  In c (chars (Join elems sep)) ->
  In c (chars sep) \/ exists e, In e elems /\ In c (chars e).
Proof.
  induction elems as [|e rest IH]; simpl.
  - intros [].
  - destruct rest as [|e' rest'].
    + intros Hc. right. exists e. auto.
    + rewrite !chars_app, !in_app_iff. intros [Hc | [Hc | Hc]].
      * right. exists e. auto.
      * now left.
      * destruct (IH Hc) as [Hs | [x [Hx Hcx]]]; [now left|].
        right. exists x. split; [now right | assumption].
Qed.


Lemma Set_lookup_eq (k x : string) (v : Values) : Set_ k x v !! k = Some [x].
Proof. unfold Set_. apply lookup_insert_eq. Qed.

Lemma sorted_keys_elem (v : Values) (k : string) :
  In k (sorted_keys v) <-> is_Some (v !! k).
Proof.
  unfold sorted_keys. rewrite <- list_elem_of_In.
  rewrite merge_sort_Permutation.
  change (map fst (map_to_list v)) with (fst <$> map_to_list v).
  rewrite list_elem_of_fmap. split.
  - intros [[k' x] [-> Hin]]. apply elem_of_map_to_list in Hin. now exists x.
  - intros [x Hx]. exists (k, x). split; [reflexivity|].
    now apply elem_of_map_to_list.
Qed.

(** A key set to a single value shows up in the encoded pairs. *)
Lemma pairs_single (v : Values) (k x : string) :
  v !! k = Some [x] -> In (QueryEscape k +:+ "=" +:+ QueryEscape x) (pairs v).
Proof.
  intros Hk. unfold pairs. apply in_flat_map. exists k. split.
  - apply sorted_keys_elem. now exists [x].
  - rewrite Hk. simpl. now left.
Qed.

(** Every encoded pair comes from a key of the map and one of its
    values. *)
Lemma pairs_inv (v : Values) (p : string) :
  In p (pairs v) ->
  exists k l x, v !! k = Some l /\ In x l
                /\ p = QueryEscape k +:+ "=" +:+ QueryEscape x.
Proof.
  unfold pairs. intros Hp. apply in_flat_map in Hp as [k [_ Hp]].
  destruct (v !! k) as [l|] eqn:Hk; simpl in Hp; [|contradiction].
  apply in_map_iff in Hp as [x [<- Hx]]. exists k, l, x. auto.
Qed.

(* ===================================================================== *)
(** ** Properties of the service *)
(* ===================================================================== *)

Section Properties.
Context {D : Domain} {P : Package}.
Implicit Types (s : ScrollService) (w : World) (r : SearchResult).

(** *** The path of the first-page request *)

Lemma cleanAll_from (names acc : list string) :
  fold_left (fun part x => (part ++ [cleanPathString x])%list) names acc
  = (acc ++ map cleanPathString names)%list.
Proof.
  revert acc. induction names as [|x names IH]; intros acc; simpl.
  - now rewrite app_nil_r.
  - rewrite IH, <- app_assoc. reflexivity.
Qed.

(** The loop cleans every name and keeps the order. *)
Lemma cleanAll_map (names : list string) :
  cleanAll names = map cleanPathString names.
Proof. unfold cleanAll. now rewrite cleanAll_from. Qed.

(** The path in all four cases at once: the collections segment
    contributes nothing when empty, the categories segment brings its own
    separator, and the leading separator is always there. *)
Lemma firstPagePath_shape s :
  firstPagePath s
  = "/" +:+ Join (map cleanPathString (indices s)) ","
        +:+ (if types s is [] then ""
             else "/" +:+ Join (map cleanPathString (types s)) ",")
        +:+ "/_search".
Proof.
  unfold firstPagePath. rewrite !cleanAll_map, !length_map.
  destruct (indices s) as [|i il], (types s) as [|t tl];
    cbv beta iota delta [Nat.ltb Nat.leb length]; cbv iota;
    rewrite ?append_assoc; reflexivity.
Qed.

(** C1 (as the code has it). With no target collection and no target
    category, the path [GetFirstPage] builds is [//_search]: the initial
    separator and the separator of the search suffix meet. *)
Theorem firstPagePath_no_targets s :
  indices s = [] -> types s = [] -> firstPagePath s = "//_search".
Proof.
  intros Hi Ht. rewrite firstPagePath_shape, Hi, Ht. reflexivity.
Qed.

(** The path and its names. With target collections and target
    categories both given, the path is the cleaned collection names joined by commas, a separator,
    the cleaned category names joined by commas, and the search suffix
    (with collections only, the categories segment and its separator are
    left out), each list in insertion order, since the setters append;
    and every character of the path is a separator, a character of the
    suffix, or a character of the cleaned form of one of the names. *)
Theorem firstPagePath_names s :
  (indices s <> [] -> types s <> [] ->
   firstPagePath s
   = "/" +:+ Join (map cleanPathString (indices s)) ","
         +:+ "/" +:+ Join (map cleanPathString (types s)) ","
         +:+ "/_search")
  /\ (indices s <> [] -> types s = [] ->
      firstPagePath s
      = "/" +:+ Join (map cleanPathString (indices s)) "," +:+ "/_search")
  /\ (forall c, In c (chars (firstPagePath s)) ->
        In c (chars "/,_search")
        \/ exists name, In name (indices s ++ types s)%list
                        /\ In c (chars (cleanPathString name)))
  /\ (forall index, indices (Index index s) = (indices s ++ [index])%list)
  /\ (forall more, indices (Indices more s) = (indices s ++ more)%list)
  /\ (forall typ, types (Type_ typ s) = (types s ++ [typ])%list)
  /\ (forall more, types (Types more s) = (types s ++ more)%list).
Proof.
  split; [|split; [|split; [|repeat split; reflexivity]]].
  - intros _ Ht. rewrite firstPagePath_shape.
    destruct (types s); [congruence | reflexivity].
  - intros _ Ht. rewrite firstPagePath_shape, Ht. reflexivity.
  - intros c. rewrite firstPagePath_shape, !chars_app, !in_app_iff.
    assert (Hjoin : forall names,
      In c (chars (Join (map cleanPathString names) ",")) ->
      In c (chars "/,_search")
      \/ exists name, In name names /\ In c (chars (cleanPathString name))).
    { intros names Hc. apply chars_Join in Hc as [Hc | [e [He Hc]]].
      - left. simpl in *. tauto.
      - right. apply in_map_iff in He as [name [<- Hname]]. eauto. }
    intros [Hc | [Hc | [Hc | Hc]]].
    + left. simpl in *. tauto.
    + destruct (Hjoin _ Hc) as [?|[name [? ?]]]; [now left|].
      right. exists name. rewrite in_app_iff. auto.
    + destruct (types s) as [|t tl] eqn:Ht; [destruct Hc|].
      rewrite chars_app, in_app_iff in Hc. destruct Hc as [Hc | Hc].
      * left. simpl in *. tauto.
      * destruct (Hjoin _ Hc) as [?|[name [? ?]]]; [now left|].
        right. exists name. rewrite in_app_iff. auto.
    + left. simpl in *. tauto.
Qed.

(** *** The parameters and the body *)

Ltac params_cases s :=
  unfold firstPageParams, nextPageParams, Set_, make_Values;
  destruct (pretty s); destruct (decide (keepAlive s <> ""));
  let n := fresh "n" in
  destruct (size s) as [n|]; try destruct (0 <? n) eqn:?.

(** The parameters of a first page are never empty, so its URL always
    has a query string. *)
Lemma firstPageURL_query s :
  firstPageURL s = firstPagePath s +:+ "?" +:+ Encode (firstPageParams s).
Proof.
  unfold firstPageURL.
  assert (Hne : len_Values (firstPageParams s) <> 0%nat).
  { unfold len_Values. apply map_size_ne_0_lookup. exists "search_type".
    params_cases s; simplify_map_eq; eauto. }
  destruct (len_Values (firstPageParams s)); [congruence | reflexivity].
Qed.

(** The [scroll] key of the two parameter maps: it is the default
    keep-alive constant when [keepAlive] is the empty string and the
    configured string itself when it is not, as after [KeepAlive "5m"]. *)
Theorem scroll_parameter s :
  (keepAlive s = "" ->
     firstPageParams s !! "scroll" = Some [defaultKeepAlive]
     /\ nextPageParams s !! "scroll" = Some [defaultKeepAlive])
  /\ (keepAlive s <> "" ->
       firstPageParams s !! "scroll" = Some [keepAlive s]
       /\ nextPageParams s !! "scroll" = Some [keepAlive s])
  /\ keepAlive (KeepAlive "5m" s) = "5m"
  /\ keepAlive (Scroll "5m" s) = "5m".
Proof.
  split; [|split; [|split; reflexivity]]; intros Hk; split;
    params_cases s; simplify_map_eq; first [congruence | contradiction].
Qed.

(** The [scroll] parameter as it goes on the wire, in both requests. *)
Lemma scroll_on_the_wire s :
  let ttl := if decide (keepAlive s = "") then defaultKeepAlive else keepAlive s in
  In ("scroll=" +:+ QueryEscape ttl) (pairs (firstPageParams s))
  /\ In ("scroll=" +:+ QueryEscape ttl) (pairs (nextPageParams s)).
Proof.
  cbv zeta. split; apply (pairs_single _ "scroll");
    params_cases s; destruct (decide (keepAlive s = ""));
    simplify_map_eq; first [congruence | contradiction].
Qed.

(** The [size] key of the two parameter maps. The first-page parameters
    hold [size], with the decimal form of
    the configured number, exactly when a positive page size is set; they
    do not hold it when the size is zero or unset; the continuation
    parameters never hold it. *)
Theorem size_parameter s :
  (forall n, size s = Some n -> 0 < n ->
             firstPageParams s !! "size" = Some [Sprintf_d n])
  /\ (size s = None \/ size s = Some 0 ->
       firstPageParams s !! "size" = None)
  /\ (is_Some (firstPageParams s !! "size")
       <-> exists n, size s = Some n /\ 0 < n)
  /\ nextPageParams s !! "size" = None.
Proof.
  repeat split.
  - intros n Hn Hpos. apply Z.ltb_lt in Hpos.
    unfold firstPageParams. rewrite Hn, Hpos. apply Set_lookup_eq.
  - intros [Hn | Hn]; unfold firstPageParams; rewrite Hn; cbn beta iota;
      unfold Set_, make_Values;
      destruct (pretty s); destruct (decide (keepAlive s <> ""));
      simplify_map_eq; reflexivity.
  - intros [x Hx]. revert Hx. params_cases s; simplify_map_eq;
      try discriminate; intros _;
      match goal with H : (0 <? ?m) = true |- _ =>
        exists m; split; [reflexivity | now apply Z.ltb_lt] end.
  - intros [n [Hn Hpos]]. apply Z.ltb_lt in Hpos.
    unfold firstPageParams. rewrite Hn, Hpos. rewrite Set_lookup_eq. eauto.
  - params_cases s; simplify_map_eq; reflexivity.
Qed.

(** No pair of the continuation's query string is a [size] pair. *)
Lemma nextPage_no_size_pair s (p : string) :
  In p (pairs (nextPageParams s)) ->
  p = "pretty=true"
  \/ exists ttl, p = "scroll=" +:+ QueryEscape ttl.
Proof.
  intros Hp. apply pairs_inv in Hp as [k [l [x [Hk [Hx ->]]]]].
  revert Hk. unfold nextPageParams, Set_, make_Values.
  destruct (pretty s); destruct (decide (keepAlive s <> ""));
    (destruct (decide (k = "scroll")) as [->|];
     [right; eauto|]);
    (destruct (decide (k = "pretty")) as [->|];
     [|simplify_map_eq; discriminate]);
    simplify_map_eq; try discriminate;
    intros Heq; injection Heq as <-; destruct Hx as [<- | []]; now left.
Qed.

(** *** Running the two fetches *)

Ltac open_body :=
  cbv beta iota zeta delta
    [GetFirstPage GetNextPage GetFirstPage_body GetNextPage_body call
     mbind Proc_bind mret Proc_ret NewRequest_ Do_ DumpResponse_ emit try
     check defer when Return fst snd];
  cbn [net trace].

Ltac split_on t :=
  let E := fresh "E" in destruct t eqn:E; open_body.

(** The line-260 test is the condition of the specification. *)
Lemma isLastPage_spec (searchResult : option SearchResult) :
  isLastPage searchResult = true <-> EndOfStream_spec searchResult.
Proof.
  unfold isLastPage, EndOfStream_spec.
  destruct searchResult as [r|]; [|intuition].
  destruct (SearchResult_Hits r) as [hits|] eqn:Eh.
  - rewrite orb_true_iff, Nat.eqb_eq, Z.eqb_eq, length_zero_iff_nil. split.
    + intros [Hl | Ht]; [right; right; left | right; right; right];
        exists r, hits; auto.
    + intros [Hn | [[r' [Hr Hn]] | [[r' [h [Hr [Hh Hl]]]] | [r' [h [Hr [Hh Ht]]]]]]];
        try discriminate; injection Hr as <-; try congruence.
      * left. congruence.
      * right. congruence.
  - split; [|reflexivity]. intros _. right; left. exists r. auto.
Qed.

(** A continuation whose exchange decodes to [r] returns end-of-stream
    or [r] itself, as line 260 decides. *)
Lemma GetNextPage_decoded s w r :
  scrollId s <> "" -> nextPageDecodes s w r ->
  fst (GetNextPage s w)
  = if isLastPage (Some r) then (None, Some EOS) else (Some r, None).
Proof.
  intros Hid [req [Hreq [res [n' [Hdo [Hck Hdec]]]]]].
  unfold nextPageRequest in Hreq. open_body.
  destruct (decide (scrollId s = "")) as [|_]; [contradiction|].
  split_on (NewRequest (client s) "POST" (nextPageURL s)); [discriminate|].
  injection Hreq as <-.
  destruct (debug s); open_body; rewrite Hdo; open_body;
    rewrite Hck; open_body; rewrite Hdec; open_body;
    destruct (isLastPage (Some r)); reflexivity.
Qed.

(** The end-of-stream sentinel comes out of a continuation only through
    line 261. *)
Lemma GetNextPage_EOS_inv s w (o : option SearchResult) :
  fst (GetNextPage s w) = (o, Some EOS) ->
  o = None /\ scrollId s <> ""
  /\ exists r, nextPageDecodes s w r /\ isLastPage (Some r) = true.
Proof.
  unfold nextPageDecodes, nextPageRequest, Decodes. open_body.
  destruct (decide (scrollId s = "")) as [|Hid]; [discriminate|].
  split_on (NewRequest (client s) "POST" (nextPageURL s)); [discriminate|].
  destruct (debug s); open_body;
    (match goal with |- context [c_Do ?cl ?q ?n] => split_on (c_Do cl q n) end;
     match goal with E : c_Do _ _ _ = (?x, _) |- _ => destruct x as [err|res] end;
     open_body; [discriminate|];
     split_on (checkResponse res); [discriminate|];
     split_on (Decode (RespBody res)); [discriminate|];
     match goal with |- context [isLastPage ?x] => split_on (isLastPage x) end;
     [|discriminate];
     intros Heq; injection Heq as <-;
     split; [reflexivity|]; split; [assumption|];
     eexists; split; [eexists; split; [reflexivity|]; eauto | assumption]).
Qed.

(** A first page whose exchange decodes to [r] returns [r]. *)
Lemma GetFirstPage_decoded s w r :
  firstPageDecodes s w r -> fst (GetFirstPage s w) = (Some r, None).
Proof.
  intros [req [Hreq [res [n' [Hdo [Hck Hdec]]]]]].
  unfold firstPageRequest in Hreq. open_body.
  split_on (NewRequest (client s) "POST" (firstPageURL s)); [discriminate|].
  injection Hreq as <-.
  destruct (debug s); open_body; rewrite Hdo; open_body;
    rewrite Hck; open_body; rewrite Hdec; reflexivity.
Qed.

(** Whatever a first page returns as its error, it is nil or came from a
    collaborator. *)
Lemma GetFirstPage_error s w :
  snd (fst (GetFirstPage s w)) = None
  \/ exists f, snd (fst (GetFirstPage s w)) = Some (Foreign f).
Proof.
  open_body.
  split_on (NewRequest (client s) "POST" (firstPageURL s)); [right; eauto|].
  destruct (debug s); open_body;
    (match goal with |- context [c_Do ?cl ?q ?n] => split_on (c_Do cl q n) end;
     match goal with E : c_Do _ _ _ = (?x, _) |- _ => destruct x as [err|res] end;
     open_body; [right; eauto|];
     split_on (checkResponse res); [right; eauto|];
     split_on (Decode (RespBody res)); [right; eauto | left; reflexivity]).
Qed.

(** The first thing [GetFirstPage] does is to construct a request for
    its URL; nothing that happened before is touched. *)
Lemma GetFirstPage_constructs s w :
  exists rest,
    trace (snd (GetFirstPage s w))
    = (trace w ++ EvNewRequest "POST" (firstPageURL s) :: rest)%list.
Proof.
  open_body.
  split_on (NewRequest (client s) "POST" (firstPageURL s));
    [eexists; reflexivity|].
  destruct (debug s); open_body;
    (match goal with |- context [c_Do ?cl ?q ?n] => split_on (c_Do cl q n) end;
     match goal with E : c_Do _ _ _ = (?x, _) |- _ => destruct x as [err|res] end;
     open_body; [rewrite <- ?app_assoc; eexists; reflexivity|];
     split_on (checkResponse res); [rewrite <- ?app_assoc; eexists; reflexivity|];
     split_on (Decode (RespBody res));
     rewrite <- ?app_assoc; eexists; reflexivity).
Qed.

(** The request [GetFirstPage] sends is [firstPageRequest]. *)
Lemma GetFirstPage_issues s w (req : Request) :
  firstPageRequest s = inr req ->
  In (EvDo req) (trace (snd (GetFirstPage s w))).
Proof.
  unfold firstPageRequest. open_body.
  split_on (NewRequest (client s) "POST" (firstPageURL s)); [discriminate|].
  intros Heq; injection Heq as <-.
  destruct (debug s); open_body;
    (match goal with |- context [c_Do ?cl ?q ?n] => split_on (c_Do cl q n) end;
     match goal with E : c_Do _ _ _ = (?x, _) |- _ => destruct x as [err|res] end;
     open_body; [rewrite !in_app_iff; simpl; tauto|];
     split_on (checkResponse res); [rewrite !in_app_iff; simpl; tauto|];
     split_on (Decode (RespBody res)); rewrite !in_app_iff; simpl; tauto).
Qed.

(** With a cursor, the first thing [GetNextPage] does is to construct a
    request for its URL. *)
Lemma GetNextPage_constructs s w :
  scrollId s <> "" ->
  exists rest,
    trace (snd (GetNextPage s w))
    = (trace w ++ EvNewRequest "POST" (nextPageURL s) :: rest)%list.
Proof.
  intros Hid. open_body.
  destruct (decide (scrollId s = "")) as [|_]; [contradiction|].
  split_on (NewRequest (client s) "POST" (nextPageURL s));
    [eexists; reflexivity|].
  destruct (debug s); open_body;
    (match goal with |- context [c_Do ?cl ?q ?n] => split_on (c_Do cl q n) end;
     match goal with E : c_Do _ _ _ = (?x, _) |- _ => destruct x as [err|res] end;
     open_body; [rewrite <- ?app_assoc; eexists; reflexivity|];
     split_on (checkResponse res); [rewrite <- ?app_assoc; eexists; reflexivity|];
     split_on (Decode (RespBody res));
     [rewrite <- ?app_assoc; eexists; reflexivity|];
     match goal with |- context [isLastPage ?x] => destruct (isLastPage x) end;
     open_body; rewrite <- ?app_assoc; eexists; reflexivity).
Qed.

(** *** Results *)

(** C5. The body of the first-page request is the object with the one
    key [query], bound to the source of the configured predicate, and the
    empty object when no predicate is configured; that object is the
    body of the request handed to the transport; a new service holds the
    match-all query. *)
Theorem firstPage_body_query s :
  (forall q, query s = Some q -> firstPageBody s = {[ "query" := Source q ]})
  /\ (query s = None -> firstPageBody s = ∅)
  /\ (forall w req,
        NewRequest (client s) "POST" (firstPageURL s) = inr req ->
        In (EvDo (SetBodyJson req (firstPageBody s)))
           (trace (snd (GetFirstPage s w))))
  /\ (forall cl, query (NewScrollService cl) = Some NewMatchAllQuery).
Proof.
  split; [|split; [|split]].
  - intros q Hq. unfold firstPageBody. rewrite Hq. reflexivity.
  - intros Hq. unfold firstPageBody. rewrite Hq. reflexivity.
  - intros w req Hreq. apply GetFirstPage_issues.
    unfold firstPageRequest. now rewrite Hreq.
  - reflexivity.
Qed.

(** C2. In [GetNextPage], after a successful decode, the result is the
    end-of-stream sentinel [EOS], with no envelope, whenever the envelope
    is absent, its hits container is absent, the hits sequence is empty
    or the total-hits counter is zero; and [EOS] is returned in no other
    situation. *)
Theorem GetNextPage_end_of_stream s w :
  (forall r,
     scrollId s <> "" -> nextPageDecodes s w r ->
     EndOfStream_spec (Some r) ->
     fst (GetNextPage s w) = (None, Some EOS))
  /\ (forall searchResult,
        EndOfStream_spec searchResult -> isLastPage searchResult = true)
  /\ (forall o,
        fst (GetNextPage s w) = (o, Some EOS) ->
        o = None
        /\ exists r, nextPageDecodes s w r /\ EndOfStream_spec (Some r)).
Proof.
  split; [|split].
  - intros r Hid Hdec Hend. rewrite (GetNextPage_decoded s w r Hid Hdec).
    apply isLastPage_spec in Hend. now rewrite Hend.
  - intros sr. apply isLastPage_spec.
  - intros o Heq. apply GetNextPage_EOS_inv in Heq as [-> [_ [r [Hdec Hlast]]]].
    split; [reflexivity|]. exists r. split; [assumption|].
    now apply isLastPage_spec.
Qed.

(** C3. With an empty cursor handle [GetNextPage] returns
    [ErrNoScrollId] and leaves the world as it was: no request is
    constructed, none is issued. *)
Theorem GetNextPage_no_cursor s w :
  scrollId s = "" -> GetNextPage s w = ((None, Some ErrNoScrollId), w).
Proof.
  intros Hid. open_body.
  destruct (decide (scrollId s = "")) as [_|]; [reflexivity | contradiction].
Qed.

(** C4 (amended). A decoded envelope whose hits container is present,
    whose hits sequence is not empty and whose total-hits counter is not
    zero is returned by [GetNextPage] as it was decoded. *)
Theorem GetNextPage_returns_page s w r (hits : SearchHits) :
  scrollId s <> "" -> nextPageDecodes s w r ->
  SearchResult_Hits r = Some hits ->
  SearchHits_Hits hits <> [] ->
  SearchHits_TotalHits hits <> 0 ->
  fst (GetNextPage s w) = (Some r, None).
Proof.
  intros Hid Hdec Hh Hne Htot. rewrite (GetNextPage_decoded s w r Hid Hdec).
  unfold isLastPage. rewrite Hh.
  destruct (SearchHits_Hits hits) as [|x l]; [congruence|].
  apply Z.eqb_neq in Htot. rewrite Htot. reflexivity.
Qed.

(** C10. [GetFirstPage] never returns the end-of-stream sentinel, and
    every envelope it decodes is returned as the result, whatever its
    hits container, hits sequence and total-hits counter are. *)
Theorem GetFirstPage_never_EOS s w :
  snd (fst (GetFirstPage s w)) <> Some EOS
  /\ (forall r, firstPageDecodes s w r ->
                fst (GetFirstPage s w) = (Some r, None)).
Proof.
  split.
  - destruct (GetFirstPage_error s w) as [-> | [f ->]]; discriminate.
  - intros r. apply GetFirstPage_decoded.
Qed.

(** C8. [Do] is [GetFirstPage] exactly when the cursor handle is empty
    and [GetNextPage] otherwise, result and effects included. *)
Theorem Do_dispatch s w :
  (scrollId s = "" -> Do s w = GetFirstPage s w)
  /\ (scrollId s <> "" -> Do s w = GetNextPage s w).
Proof.
  unfold Do. destruct (decide (scrollId s = "")); split; intros; congruence.
Qed.

End Properties.

(* ===================================================================== *)
(** ** The service on the canned client *)
(* ===================================================================== *)

Section Scenarios.
#[local] Existing Instances Mock.domain Mock.package.

Example Encode_sorts_keys :
  Encode (Set_ "scroll" "1m" (Set_ "search_type" "scan" make_Values))
  = "scroll=1m&search_type=scan".
Proof. vm_compute. reflexivity. Qed.

Example QueryEscape_mixed : QueryEscape "a b/c,d" = "a+b%2Fc%2Cd".
Proof. reflexivity. Qed.

Example Sprintf_d_50 : Sprintf_d 50 = "50".
Proof. reflexivity. Qed.

Example firstPageURL_logs :
  firstPageURL Mock.logs = "/logs/_search?scroll=1m&search_type=scan&size=50".
Proof. vm_compute. reflexivity. Qed.

Example firstPageURL_fresh :
  firstPageURL Mock.fresh = "//_search?scroll=5m&search_type=scan".
Proof. vm_compute. reflexivity. Qed.

(** Only categories: the empty collections segment leaves two separators
    in a row as well. *)
Example firstPagePath_types_only :
  firstPagePath (Type_ "tweet" Mock.fresh) = "//tweet/_search".
Proof. vm_compute. reflexivity. Qed.

(** A first page of three hits, then a continuation that finds the
    cursor drained. *)
Example first_page_then_drained :
  let '(first, w1) :=
    GetFirstPage Mock.logs (Mock.world [Mock.ok "three"; Mock.ok "drained"]) in
  first = (Some (Mock.envelope 3 ["1"; "2"; "3"]), None)
  /\ fst (GetNextPage Mock.resumed w1) = (None, Some EOS).
Proof. vm_compute. split; reflexivity. Qed.

(** A continuation page whose counter still says three and whose hits
    sequence is empty ends the stream. *)
Example GetNextPage_drained :
  fst (GetNextPage Mock.resumed (Mock.world [Mock.ok "drained"]))
  = (None, Some EOS).
Proof. vm_compute. reflexivity. Qed.

(** A failing status is reported as the collaborator's error, not as the
    end of the stream. *)
Example GetNextPage_bad_status :
  fst (GetNextPage Mock.resumed
         (Mock.world [{| StatusCode := 500; RespBody := "three" |}]))
  = (None, Some (Foreign "unexpected status")).
Proof. vm_compute. reflexivity. Qed.

Lemma resumed_decodes (body : string) (r : SearchResult) :
  Mock.decode body = inr r ->
  nextPageDecodes Mock.resumed (Mock.world [Mock.ok body]) r.
Proof.
  intros Hdec. eexists. split; [reflexivity|].
  exists (Mock.ok body), []. repeat split. exact Hdec.
Qed.

Lemma logs_decodes (body : string) (r : SearchResult) :
  Mock.decode body = inr r ->
  firstPageDecodes Mock.logs (Mock.world [Mock.ok body]) r.
Proof.
  intros Hdec. eexists. split; [reflexivity|].
  exists (Mock.ok body), []. repeat split. exact Hdec.
Qed.

(** C1, on the service nothing was configured on. *)
Lemma firstPagePath_no_targets_fresh : firstPagePath Mock.fresh = "//_search".
Proof.
  apply (@firstPagePath_no_targets Mock.domain Mock.package Mock.fresh);
    reflexivity.
Defined.

(** The path of two collections and two categories. *)
Lemma firstPagePath_names_targeted :
  firstPagePath Mock.targeted = "/logs,my+idx/a,b/_search".
Proof.
  refine (proj1 (@firstPagePath_names Mock.domain Mock.package Mock.targeted)
                _ _);
    discriminate.
Defined.

(** C2, on a continuation answered with zero total hits. *)
Lemma GetNextPage_end_of_stream_zero :
  fst (GetNextPage Mock.resumed (Mock.world [Mock.ok "zero"]))
  = (None, Some EOS).
Proof.
  refine (proj1 (@GetNextPage_end_of_stream Mock.domain Mock.package
                   Mock.resumed (Mock.world [Mock.ok "zero"]))
                (Mock.envelope 0 []) _ _ _).
  - discriminate.
  - apply resumed_decodes. reflexivity.
  - right; right; left. eexists _, _. repeat split; reflexivity.
Defined.

(** C3, on a service that holds no cursor yet. *)
Lemma GetNextPage_no_cursor_logs :
  GetNextPage Mock.logs (Mock.world [Mock.ok "three"])
  = ((None, Some ErrNoScrollId), Mock.world [Mock.ok "three"]).
Proof.
  apply (@GetNextPage_no_cursor Mock.domain Mock.package). reflexivity.
Defined.

(** C4 as stated fails: the envelope decoded here holds one hit record,
    and [GetNextPage] returns the end-of-stream sentinel instead of it,
    because its total-hits counter is zero. *)
Lemma GetNextPage_hit_with_zero_total :
  scrollId Mock.resumed <> ""
  /\ nextPageDecodes Mock.resumed (Mock.world [Mock.ok "stale"])
       (Mock.envelope 0 ["1"])
  /\ (exists hits,
        SearchResult_Hits (Mock.envelope 0 ["1"]) = Some hits
        /\ (0 < length (SearchHits_Hits hits))%nat)
  /\ fst (GetNextPage Mock.resumed (Mock.world [Mock.ok "stale"]))
     = (None, Some EOS)
  /\ fst (GetNextPage Mock.resumed (Mock.world [Mock.ok "stale"]))
     <> (Some (Mock.envelope 0 ["1"]), None).
Proof.
  split; [discriminate|]. split; [apply resumed_decodes; reflexivity|].
  split; [eexists; split; [reflexivity | simpl; lia]|].
  split; [vm_compute; reflexivity | vm_compute; discriminate].
Qed.

(** C4 (amended), on a continuation page of three hits. *)
Lemma GetNextPage_returns_page_three :
  fst (GetNextPage Mock.resumed (Mock.world [Mock.ok "three"]))
  = (Some (Mock.envelope 3 ["1"; "2"; "3"]), None).
Proof.
  refine (@GetNextPage_returns_page Mock.domain Mock.package
            Mock.resumed (Mock.world [Mock.ok "three"])
            (Mock.envelope 3 ["1"; "2"; "3"])
            (@mkSearchHits Mock.domain 3 ["1"; "2"; "3"]) _ _ _ _ _).
  - discriminate.
  - apply resumed_decodes. reflexivity.
  - reflexivity.
  - discriminate.
  - discriminate.
Defined.

(** C5, on the default predicate. *)
Lemma firstPage_body_query_logs :
  In (EvDo {| Method := "POST";
              URL := "/logs/_search?scroll=1m&search_type=scan&size=50";
              ReqBody :=
                BodyJson {[ "query" := JObject [("match_all", JObject [])] ]} |})
     (trace (snd (GetFirstPage Mock.logs (Mock.world [Mock.ok "three"])))).
Proof.
  refine (proj1 (proj2 (proj2 (@firstPage_body_query Mock.domain Mock.package
                                 Mock.logs)))
                (Mock.world [Mock.ok "three"])
                {| Method := "POST";
                   URL := "/logs/_search?scroll=1m&search_type=scan&size=50";
                   ReqBody := NoBody |} _).
  vm_compute. reflexivity.
Defined.

(** The [scroll] key with a keep-alive of one minute and with none. *)
Lemma scroll_parameter_logs :
  (firstPageParams Mock.logs !! "scroll" = Some ["1m"]
   /\ nextPageParams Mock.logs !! "scroll" = Some ["1m"])
  /\ (firstPageParams Mock.fresh !! "scroll" = Some ["5m"]
      /\ nextPageParams Mock.fresh !! "scroll" = Some ["5m"]).
Proof.
  split.
  - refine (proj1 (proj2 (@scroll_parameter Mock.domain Mock.package Mock.logs)) _).
    discriminate.
  - refine (proj1 (@scroll_parameter Mock.domain Mock.package Mock.fresh) _).
    reflexivity.
Defined.

(** The [size] key with pages of fifty. *)
Lemma size_parameter_logs : firstPageParams Mock.logs !! "size" = Some ["50"].
Proof.
  refine (proj1 (@size_parameter Mock.domain Mock.package Mock.logs) 50 _ _).
  - reflexivity.
  - lia.
Defined.

(** C8, before and after the handle is known. *)
Lemma Do_dispatch_logs :
  Do Mock.logs (Mock.world [Mock.ok "three"])
  = GetFirstPage Mock.logs (Mock.world [Mock.ok "three"])
  /\ Do Mock.resumed (Mock.world [Mock.ok "three"])
     = GetNextPage Mock.resumed (Mock.world [Mock.ok "three"]).
Proof.
  split.
  - refine (proj1 (@Do_dispatch Mock.domain Mock.package Mock.logs _) _).
    reflexivity.
  - refine (proj2 (@Do_dispatch Mock.domain Mock.package Mock.resumed _) _).
    discriminate.
Defined.

(** C10, on a first page with zero total hits and no hit record. *)
Lemma GetFirstPage_never_EOS_zero :
  fst (GetFirstPage Mock.logs (Mock.world [Mock.ok "zero"]))
  = (Some (Mock.envelope 0 []), None).
Proof.
  refine (proj2 (@GetFirstPage_never_EOS Mock.domain Mock.package
                   Mock.logs (Mock.world [Mock.ok "zero"]))
                (Mock.envelope 0 []) _).
  apply logs_decodes. reflexivity.
Defined.

End Scenarios.

(* ===================================================================== *)
(** ** More on the library functions *)
(* ===================================================================== *)

Lemma chars_String (c : ascii) (s : string) : chars (String c s) = c :: chars s.
Proof. reflexivity. Qed.

(** A string of unreserved characters is its own escaped form. *)
Lemma QueryEscape_unreserved (s : string) :
  Forall (fun c => shouldEscape c = false) (chars s) -> QueryEscape s = s.
Proof.
  induction s as [|c s IH]; [reflexivity|].
  rewrite chars_String. intros Hall. inversion Hall as [|? ? Hc Hs]; subst.
  cbn [QueryEscape]. rewrite Hc, IH by assumption. reflexivity.
Qed.

Lemma pretty_N_char_unreserved (x : N) : shouldEscape (pretty_N_char x) = false.
Proof.
  unfold pretty_N_char. repeat case_match; reflexivity.
Qed.

Lemma pretty_N_go_unreserved (x : N) (s : string) :
  Forall (fun c => shouldEscape c = false) (chars s) ->
  Forall (fun c => shouldEscape c = false) (chars (pretty_N_go x s)).
Proof.
  revert s. induction (N.lt_wf_0 x) as [x _ IH]. intros s Hs.
  destruct (decide (x = 0%N)) as [->|Hx].
  - now rewrite pretty_N_go_0.
  - rewrite pretty_N_go_step by lia. apply IH.
    + apply N.div_lt; lia.
    + rewrite chars_String. constructor; [apply pretty_N_char_unreserved | exact Hs].
Qed.

(** The decimal form of a number needs no escaping in a query string. *)
Lemma Sprintf_d_unreserved (n : Z) : QueryEscape (Sprintf_d n) = Sprintf_d n.
Proof.
  apply QueryEscape_unreserved. unfold Sprintf_d, stdpp.pretty.pretty, pretty_Z.
  assert (HN : forall p, Forall (fun c => shouldEscape c = false)
                           (chars (stdpp.pretty.pretty (Npos p)))).
  { intros p. unfold stdpp.pretty.pretty, pretty_N.
    destruct (decide (Npos p = 0%N)); [discriminate|].
    apply pretty_N_go_unreserved. constructor. }
  destruct n as [|p|p].
  - repeat constructor.
  - apply HN.
  - rewrite chars_app. apply Forall_app. split; [|apply HN].
    repeat constructor.
Qed.

Lemma issued_app {D : Domain} (t u : list Event) :
  issued (t ++ u) = (issued t ++ issued u)%list.
Proof. unfold issued. apply flat_map_app. Qed.



(* ===================================================================== *)
(** ** More on the service *)
(* ===================================================================== *)

Section Exchanges.
Context {D : Domain} {P : Package}.
Implicit Types (s : ScrollService) (w : World) (r : SearchResult).

Ltac run_body :=
  cbv beta iota zeta delta
    [GetFirstPage GetNextPage GetFirstPage_body GetNextPage_body call
     mbind Proc_bind mret Proc_ret NewRequest_ Do_ DumpResponse_ emit try
     check defer when Return after fst snd];
  cbn [net trace].

Ltac tidy := run_body; cbn [app]; rewrite <- ?app_assoc; cbn [app].

(** [GetNextPage] with a cursor, path by path: what it returns and the
    world it leaves. *)
Lemma GetNextPage_run s w :
  scrollId s <> "" ->
  GetNextPage s w =
  let w1 := after w (EvNewRequest "POST" (nextPageURL s)) in
  match nextPageRequest s with
  | inl e => ((None, Some (Foreign e)), w1)
  | inr req =>
      let t2 :=
        (trace w1
         ++ (if debug s then [EvLog (DumpRequestOut req +:+ newline)] else [])
         ++ [EvDo req])%list in
      match c_Do (client s) req (net w) with
      | (inl e, n') => ((None, Some (Foreign e)), mkWorld n' t2)
      | (inr res, n') =>
          match checkResponse res with
          | Some e => ((None, Some (Foreign e)), mkWorld n' t2)
          | None =>
              let t3 :=
                (t2
                 ++ (if debug s
                     then [EvClose res; EvLog (DumpResponse res +:+ newline)]
                     else [])
                 ++ [EvClose res])%list in
              match Decode (RespBody res) with
              | inl e => ((None, Some (Foreign e)), mkWorld n' t3)
              | inr r =>
                  (if isLastPage (Some r) then (None, Some EOS)
                   else (Some r, None),
                   mkWorld n' t3)
              end
          end
      end
  end.
Proof.
  intros Hid. unfold nextPageRequest. run_body.
  destruct (decide (scrollId s = "")) as [|_]; [contradiction|].
  destruct (NewRequest (client s) "POST" (nextPageURL s)) as [e|req0];
    [reflexivity|].
  destruct (debug s); tidy;
    (destruct (c_Do (client s) (SetBodyString req0 (scrollId s)) (net w))
       as [[e|res] n']; tidy; [reflexivity|];
     destruct (checkResponse res) as [e|]; tidy; [reflexivity|];
     destruct (Decode (RespBody res)) as [e|r]; tidy; [reflexivity|];
     destruct (isLastPage (Some r)); tidy; reflexivity).
Qed.

(** [GetNextPage] without a cursor: the guard of line 206. *)
Lemma GetNextPage_guard s w :
  scrollId s = "" -> GetNextPage s w = ((None, Some ErrNoScrollId), w).
Proof.
  intros Hid. run_body.
  destruct (decide (scrollId s = "")); [reflexivity | contradiction].
Qed.

(** [GetFirstPage], path by path. *)
Lemma GetFirstPage_run s w :
  GetFirstPage s w =
  let w1 := after w (EvNewRequest "POST" (firstPageURL s)) in
  match firstPageRequest s with
  | inl e => ((None, Some (Foreign e)), w1)
  | inr req =>
      let t2 :=
        (trace w1
         ++ (if debug s then [EvStdout (DumpRequestOut req +:+ newline)] else [])
         ++ [EvDo req])%list in
      match c_Do (client s) req (net w) with
      | (inl e, n') => ((None, Some (Foreign e)), mkWorld n' t2)
      | (inr res, n') =>
          match checkResponse res with
          | Some e => ((None, Some (Foreign e)), mkWorld n' t2)
          | None =>
              let t3 :=
                (t2
                 ++ (if debug s
                     then [EvClose res; EvStdout (DumpResponse res +:+ newline)]
                     else [])
                 ++ [EvClose res])%list in
              match Decode (RespBody res) with
              | inl e => ((None, Some (Foreign e)), mkWorld n' t3)
              | inr r => ((Some r, None), mkWorld n' t3)
              end
          end
      end
  end.
Proof.
  unfold firstPageRequest. run_body.
  destruct (NewRequest (client s) "POST" (firstPageURL s)) as [e|req0];
    [reflexivity|].
  destruct (debug s); tidy;
    (destruct (c_Do (client s) (SetBodyJson req0 (firstPageBody s)) (net w))
       as [[e|res] n']; tidy; [reflexivity|];
     destruct (checkResponse res) as [e|]; tidy; [reflexivity|];
     destruct (Decode (RespBody res)) as [e|r]; tidy; reflexivity).
Qed.

(** *** Failures *)

(** X1. With a cursor, [GetNextPage] hands back the first failure it
    meets, unchanged and with no envelope: of request construction (and
    then nothing goes to the transport), of the transport, of the status
    check, of the decoder. *)
Theorem GetNextPage_errors s w :
  scrollId s <> "" ->
  (forall e,
     NewRequest (client s) "POST" (nextPageURL s) = inl e ->
     GetNextPage s w
     = ((None, Some (Foreign e)),
        after w (EvNewRequest "POST" (nextPageURL s))))
  /\ (forall req e n',
        nextPageRequest s = inr req ->
        c_Do (client s) req (net w) = (inl e, n') ->
        fst (GetNextPage s w) = (None, Some (Foreign e)))
  /\ (forall req res n' e,
        nextPageRequest s = inr req ->
        c_Do (client s) req (net w) = (inr res, n') ->
        checkResponse res = Some e ->
        fst (GetNextPage s w) = (None, Some (Foreign e)))
  /\ (forall req res n' e,
        nextPageRequest s = inr req ->
        c_Do (client s) req (net w) = (inr res, n') ->
        checkResponse res = None ->
        Decode (RespBody res) = inl e ->
        fst (GetNextPage s w) = (None, Some (Foreign e))).
Proof.
  intros Hid. rewrite (GetNextPage_run s w Hid). cbv zeta.
  split; [|split; [|split]].
  - intros e He. unfold nextPageRequest. now rewrite He.
  - intros req e n' -> ->. reflexivity.
  - intros req res n' e -> -> ->. reflexivity.
  - intros req res n' e -> -> -> ->. reflexivity.
Qed.

(** X2. [GetFirstPage] hands back the first failure it meets, unchanged
    and with no envelope: of request construction (and then nothing goes
    to the transport), of the transport, of the status check, of the
    decoder. *)
Theorem GetFirstPage_errors s w :
  (forall e,
     NewRequest (client s) "POST" (firstPageURL s) = inl e ->
     GetFirstPage s w
     = ((None, Some (Foreign e)),
        after w (EvNewRequest "POST" (firstPageURL s))))
  /\ (forall req e n',
        firstPageRequest s = inr req ->
        c_Do (client s) req (net w) = (inl e, n') ->
        fst (GetFirstPage s w) = (None, Some (Foreign e)))
  /\ (forall req res n' e,
        firstPageRequest s = inr req ->
        c_Do (client s) req (net w) = (inr res, n') ->
        checkResponse res = Some e ->
        fst (GetFirstPage s w) = (None, Some (Foreign e)))
  /\ (forall req res n' e,
        firstPageRequest s = inr req ->
        c_Do (client s) req (net w) = (inr res, n') ->
        checkResponse res = None ->
        Decode (RespBody res) = inl e ->
        fst (GetFirstPage s w) = (None, Some (Foreign e))).
Proof.
  rewrite (GetFirstPage_run s w). cbv zeta.
  split; [|split; [|split]].
  - intros e He. unfold firstPageRequest. now rewrite He.
  - intros req e n' -> ->. reflexivity.
  - intros req res n' e -> -> ->. reflexivity.
  - intros req res n' e -> -> -> ->. reflexivity.
Qed.

(** *** Effects *)



(** X5. A call of [GetNextPage] sends at most one request, and only the
    continuation request: none without a cursor or when the request
    cannot be constructed, one otherwise; the remote end is left as that
    one call left it. There is no retry. *)
Theorem GetNextPage_single_request s w :
  issued (trace (snd (GetNextPage s w)))
  = (issued (trace w)
     ++ (if decide (scrollId s = "") then []
         else match nextPageRequest s with
              | inr req => [req]
              | inl _ => []
              end))%list
  /\ net (snd (GetNextPage s w))
     = (if decide (scrollId s = "") then net w
        else match nextPageRequest s with
             | inr req => snd (c_Do (client s) req (net w))
             | inl _ => net w
             end).
Proof.
  destruct (decide (scrollId s = "")) as [Hid|Hid].
  - rewrite (GetNextPage_guard s w Hid). cbn [snd].
    now rewrite app_nil_r.
  - rewrite (GetNextPage_run s w Hid). cbv zeta.
    destruct (nextPageRequest s) as [e|req].
    + cbn [snd after net trace]. rewrite issued_app, ?app_nil_r.
      split; reflexivity.
    + destruct (c_Do (client s) req (net w)) as [[e|res] n'].
      * cbn [snd after net trace]. rewrite !issued_app.
        destruct (debug s); cbn; rewrite ?app_nil_r; split; reflexivity.
      * destruct (checkResponse res); [|destruct (Decode (RespBody res))];
          cbn [snd after net trace]; rewrite !issued_app;
          destruct (debug s); cbn; rewrite ?app_nil_r; split; reflexivity.
Qed.

(** X6. A call of [GetFirstPage] sends at most one request, and only
    the first-page request: none when the request cannot be constructed,
    one otherwise; the remote end is left as that one call left it. *)
Theorem GetFirstPage_single_request s w :
  issued (trace (snd (GetFirstPage s w)))
  = (issued (trace w)
     ++ match firstPageRequest s with
        | inr req => [req]
        | inl _ => []
        end)%list
  /\ net (snd (GetFirstPage s w))
     = match firstPageRequest s with
       | inr req => snd (c_Do (client s) req (net w))
       | inl _ => net w
       end.
Proof.
  rewrite (GetFirstPage_run s w). cbv zeta.
  destruct (firstPageRequest s) as [e|req].
  - cbn [snd after net trace]. rewrite issued_app, ?app_nil_r.
    split; reflexivity.
  - destruct (c_Do (client s) req (net w)) as [[e|res] n'].
    + cbn [snd after net trace]. rewrite !issued_app.
      destruct (debug s); cbn; rewrite ?app_nil_r; split; reflexivity.
    + destruct (checkResponse res); [|destruct (Decode (RespBody res))];
        cbn [snd after net trace]; rewrite !issued_app;
        destruct (debug s); cbn; rewrite ?app_nil_r; split; reflexivity.
Qed.



(** *** Results *)

(** X9. Each of [GetFirstPage], [GetNextPage] and [Do] returns either an
    envelope and no error, or an error and no envelope: never both,
    never neither. *)
Theorem outcome_shape s w :
  let shaped (o : Outcome) :=
    (exists r, o = (Some r, None)) \/ (exists e, o = (None, Some e)) in
  shaped (fst (GetFirstPage s w))
  /\ shaped (fst (GetNextPage s w))
  /\ shaped (fst (Do s w)).
Proof.
  cbv zeta.
  assert (Hfirst : (exists r, fst (GetFirstPage s w) = (Some r, None))
                   \/ (exists e, fst (GetFirstPage s w) = (None, Some e))).
  { rewrite (GetFirstPage_run s w). cbv zeta.
    destruct (firstPageRequest s) as [e|req]; [right; eauto|].
    destruct (c_Do (client s) req (net w)) as [[e|res] n']; [right; eauto|].
    destruct (checkResponse res); [right; eauto|].
    destruct (Decode (RespBody res)); [right; eauto | left; eauto]. }
  assert (Hnext : (exists r, fst (GetNextPage s w) = (Some r, None))
                  \/ (exists e, fst (GetNextPage s w) = (None, Some e))).
  { destruct (decide (scrollId s = "")) as [Hid|Hid].
    { rewrite (GetNextPage_guard s w Hid). right; eauto. }
    rewrite (GetNextPage_run s w Hid). cbv zeta.
    destruct (nextPageRequest s) as [e|req]; [right; eauto|].
    destruct (c_Do (client s) req (net w)) as [[e|res] n']; [right; eauto|].
    destruct (checkResponse res); [right; eauto|].
    destruct (Decode (RespBody res)) as [e|r]; [right; eauto|].
    destruct (isLastPage (Some r)); [right; eauto | left; eauto]. }
  split; [exact Hfirst|]. split; [exact Hnext|].
  unfold Do. destruct (decide (scrollId s = "")); assumption.
Qed.

(** X10. An envelope that [GetNextPage] returns is the one the answer
    decoded to, and it has a hits container, at least one hit record and
    a total-hits counter other than zero; in particular the service held
    a cursor. *)
Theorem GetNextPage_page_has_hits s w r :
  fst (GetNextPage s w) = (Some r, None) ->
  scrollId s <> ""
  /\ nextPageDecodes s w r
  /\ exists hits,
       SearchResult_Hits r = Some hits
       /\ SearchHits_Hits hits <> []
       /\ SearchHits_TotalHits hits <> 0.
Proof.
  destruct (decide (scrollId s = "")) as [Hid|Hid].
  { rewrite (GetNextPage_guard s w Hid). discriminate. }
  rewrite (GetNextPage_run s w Hid). cbv zeta.
  unfold nextPageDecodes, Decodes.
  destruct (nextPageRequest s) as [e|req]; [discriminate|].
  destruct (c_Do (client s) req (net w)) as [[e|res] n'] eqn:Hdo;
    [discriminate|].
  destruct (checkResponse res) eqn:Hck; [discriminate|].
  destruct (Decode (RespBody res)) as [e|r'] eqn:Hdec; [discriminate|].
  destruct (isLastPage (Some r')) eqn:Hlast; [discriminate|].
  cbn [fst]. intros Heq. injection Heq as <-.
  split; [assumption|]. split; [eauto 8|].
  unfold isLastPage in Hlast.
  destruct (SearchResult_Hits r') as [hits|]; [|discriminate].
  apply orb_false_iff in Hlast as [Hlen Htot].
  exists hits. split; [reflexivity|]. split.
  - intros Hnil. rewrite Hnil in Hlen. discriminate.
  - now apply Z.eqb_neq.
Qed.

(** X11. An envelope that [GetFirstPage] returns is the one the answer
    to its request decoded to. *)
Theorem GetFirstPage_page_decoded s w r :
  fst (GetFirstPage s w) = (Some r, None) -> firstPageDecodes s w r.
Proof.
  rewrite (GetFirstPage_run s w). cbv zeta.
  unfold firstPageDecodes, Decodes.
  destruct (firstPageRequest s) as [e|req]; [discriminate|].
  destruct (c_Do (client s) req (net w)) as [[e|res] n'] eqn:Hdo;
    [discriminate|].
  destruct (checkResponse res) eqn:Hck; [discriminate|].
  destruct (Decode (RespBody res)) as [e|r'] eqn:Hdec; [discriminate|].
  cbn [fst]. intros Heq. injection Heq as <-. eauto 8.
Qed.

(** X12. [GetNextPage] reports the missing cursor exactly when the
    cursor handle is empty. *)
Theorem GetNextPage_ErrNoScrollId_iff s w :
  snd (fst (GetNextPage s w)) = Some ErrNoScrollId <-> scrollId s = "".
Proof.
  split.
  - intros Herr. destruct (decide (scrollId s = "")) as [Hid|Hid]; [assumption|].
    exfalso. revert Herr. rewrite (GetNextPage_run s w Hid). cbv zeta.
    destruct (nextPageRequest s) as [e|req]; [discriminate|].
    destruct (c_Do (client s) req (net w)) as [[e|res] n']; [discriminate|].
    destruct (checkResponse res); [discriminate|].
    destruct (Decode (RespBody res)) as [e|r]; [discriminate|].
    destruct (isLastPage (Some r)); discriminate.
  - intros Hid. now rewrite (GetNextPage_guard s w Hid).
Qed.

(** X13. [Do] never reports the missing cursor: it goes to
    [GetNextPage] only with a cursor, and [GetFirstPage] has no such
    error. *)
Theorem Do_never_ErrNoScrollId s w :
  snd (fst (Do s w)) <> Some ErrNoScrollId.
Proof.
  unfold Do. destruct (decide (scrollId s = "")) as [Hid|Hid].
  - destruct (GetFirstPage_error s w) as [-> | [f ->]]; discriminate.
  - rewrite (GetNextPage_run s w Hid). cbv zeta.
    destruct (nextPageRequest s) as [e|req]; [discriminate|].
    destruct (c_Do (client s) req (net w)) as [[e|res] n']; [discriminate|].
    destruct (checkResponse res); [discriminate|].
    destruct (Decode (RespBody res)) as [e|r]; [discriminate|].
    destruct (isLastPage (Some r)); discriminate.
Qed.

End Exchanges.

(* ===================================================================== *)
(** ** Configuration and what each fetch reads of it *)
(* ===================================================================== *)

Section Configuration.
Context {D : Domain} {P : Package}.
Implicit Types (s : ScrollService) (w : World).

(** [GetFirstPage] reads the service through its client, its debug flag,
    the URL and the body only. *)
Lemma GetFirstPage_ext s s' w :
  client s = client s' -> debug s = debug s' ->
  firstPageURL s = firstPageURL s' -> firstPageBody s = firstPageBody s' ->
  GetFirstPage s w = GetFirstPage s' w.
Proof.
  intros Hc Hd Hu Hb. unfold GetFirstPage, GetFirstPage_body.
  rewrite Hc, Hd, Hu, Hb. reflexivity.
Qed.

(** X14. A continuation reads the service through its client, its
    debug and pretty flags, its keep-alive and its cursor handle only:
    two services that agree on these do and return the same. Targets,
    query and page size play no part, so [Index], [Indices], [Type],
    [Types], [Query] and [Size] leave [GetNextPage] as it was. *)
Theorem GetNextPage_reads s s' w :
  client s = client s' -> debug s = debug s' -> pretty s = pretty s' ->
  keepAlive s = keepAlive s' -> scrollId s = scrollId s' ->
  GetNextPage s w = GetNextPage s' w.
Proof.
  intros Hc Hd Hp Hk Hi.
  unfold GetNextPage, GetNextPage_body, nextPageURL, nextPageParams.
  rewrite Hc, Hd, Hp, Hk, Hi. reflexivity.
Qed.

(** X15. A first page reads everything but the cursor handle: two
    services that agree on client, flags, keep-alive, targets, query and
    page size do and return the same, whatever handle each holds. *)
Theorem GetFirstPage_reads s s' w :
  client s = client s' -> debug s = debug s' -> pretty s = pretty s' ->
  keepAlive s = keepAlive s' -> indices s = indices s' ->
  types s = types s' -> query s = query s' -> size s = size s' ->
  GetFirstPage s w = GetFirstPage s' w.
Proof.
  intros Hc Hd Hp Hk Hi Ht Hq Hs.
  apply GetFirstPage_ext; try assumption.
  - unfold firstPageURL, firstPagePath, firstPageParams.
    rewrite Hp, Hk, Hi, Ht, Hs. reflexivity.
  - unfold firstPageBody. rewrite Hq. reflexivity.
Qed.

(** X16. A page size that is not positive counts as none: on a service
    with no positive size, [Size n] with [n <= 0] leaves the first page
    as it was, request and result. *)
Theorem GetFirstPage_nonpositive_size s w (n : Z) :
  n <= 0 ->
  (forall m, size s = Some m -> m <= 0) ->
  firstPageURL (Size n s) = firstPageURL s
  /\ GetFirstPage (Size n s) w = GetFirstPage s w.
Proof.
  intros Hn Hs.
  assert (Hparams : firstPageParams (Size n s) = firstPageParams s).
  { unfold firstPageParams. cbn [Size size pretty keepAlive].
    assert (Hn' : (0 <? n) = false) by (apply Z.ltb_ge; lia). rewrite Hn'.
    destruct (size s) as [m|]; [|reflexivity].
    assert (Hm : (0 <? m) = false) by (apply Z.ltb_ge; auto). now rewrite Hm. }
  assert (Hurl : firstPageURL (Size n s) = firstPageURL s).
  { unfold firstPageURL. rewrite Hparams. reflexivity. }
  split; [exact Hurl|].
  apply GetFirstPage_ext; try reflexivity. exact Hurl.
Qed.

(** X17. The URL of a continuation, in full: the fixed path, then
    [pretty=true] if asked for, then [scroll] with the escaped keep-alive
    (the default one when none is set); nothing else. *)
Theorem nextPageURL_exact s :
  nextPageURL s
  = "/_search/scroll?"
    +:+ (if pretty s then "pretty=true&" else "")
    +:+ "scroll="
    +:+ QueryEscape (if decide (keepAlive s = "") then defaultKeepAlive
                     else keepAlive s).
Proof.
  unfold nextPageURL, nextPageParams.
  destruct (pretty s), (decide (keepAlive s <> "")), (decide (keepAlive s = ""));
    try contradiction; vm_compute; reflexivity.
Qed.

(** X18. The URL of a first page, in full: the path, then the
    parameters in the order of their keys, [pretty=true] if asked for,
    [scroll] with the escaped keep-alive, [search_type=scan], and [size]
    in decimal if a positive size is set. *)
Theorem firstPageURL_exact s :
  firstPageURL s
  = firstPagePath s
    +:+ "?"
    +:+ (if pretty s then "pretty=true&" else "")
    +:+ "scroll="
    +:+ QueryEscape (if decide (keepAlive s = "") then defaultKeepAlive
                     else keepAlive s)
    +:+ "&search_type=scan"
    +:+ match size s with
        | Some n => if 0 <? n then "&size=" +:+ Sprintf_d n else ""
        | None => ""
        end.
Proof.
  rewrite firstPageURL_query. do 2 f_equal.
  assert (Hsized : forall (p : bool) (ttl x : string),
    Encode (Set_ "size" x (Set_ "scroll" ttl
              (if p then Set_ "pretty" "true" (Set_ "search_type" "scan" make_Values)
               else Set_ "search_type" "scan" make_Values)))
    = (if p then "pretty=true&" else "")
      +:+ "scroll=" +:+ QueryEscape ttl
      +:+ "&search_type=scan&size=" +:+ QueryEscape x).
  { intros [] ttl x; vm_compute; reflexivity. }
  assert (Hplain : forall (p : bool) (ttl : string),
    Encode (Set_ "scroll" ttl
              (if p then Set_ "pretty" "true" (Set_ "search_type" "scan" make_Values)
               else Set_ "search_type" "scan" make_Values))
    = (if p then "pretty=true&" else "")
      +:+ "scroll=" +:+ QueryEscape ttl +:+ "&search_type=scan").
  { intros [] ttl; vm_compute; reflexivity. }
  set (ttl := if decide (keepAlive s = "") then defaultKeepAlive else keepAlive s).
  assert (Hbase : firstPageParams s
    = let base :=
        Set_ "scroll" ttl
          (if pretty s
           then Set_ "pretty" "true" (Set_ "search_type" "scan" make_Values)
           else Set_ "search_type" "scan" make_Values) in
      match size s with
      | Some n => if 0 <? n then Set_ "size" (Sprintf_d n) base else base
      | None => base
      end).
  { unfold firstPageParams, ttl.
    destruct (pretty s), (decide (keepAlive s <> "")),
      (decide (keepAlive s = "")); try contradiction; reflexivity. }
  rewrite Hbase. cbv zeta.
  destruct (size s) as [n|]; [destruct (0 <? n)|].
  - rewrite Hsized, Sprintf_d_unreserved.
    destruct (pretty s); rewrite ?append_assoc; reflexivity.
  - rewrite Hplain. destruct (pretty s); rewrite ?append_assoc; reflexivity.
  - rewrite Hplain. destruct (pretty s); rewrite ?append_assoc; reflexivity.
Qed.

(** X19. [Indices] and [Types] with several names do what [Index] and
    [Type] do called once per name, in order. *)
Theorem Indices_Types_fold s (names : list string) :
  fold_left (fun acc index => Index index acc) names s = Indices names s
  /\ fold_left (fun acc typ => Type_ typ acc) names s = Types names s.
Proof.
  split; revert s; induction names as [|x names IH]; intros s; cbn [fold_left].
  - destruct s. unfold Indices. cbn. now rewrite app_nil_r.
  - rewrite IH. unfold Indices, Index. cbn. now rewrite <- app_assoc.
  - destruct s. unfold Types. cbn. now rewrite app_nil_r.
  - rewrite IH. unfold Types, Type_. cbn. now rewrite <- app_assoc.
Qed.

End Configuration.

(* ===================================================================== *)
(** ** The requests on the wire *)
(* ===================================================================== *)

Section Wire.
Context {D : Domain} {P : Package}.
Implicit Types (s : ScrollService) (w : World).

(** The query string of a continuation. *)
Lemma Encode_nextPageParams s :
  Encode (nextPageParams s)
  = (if pretty s then "pretty=true&" else "")
    +:+ "scroll="
    +:+ QueryEscape (if decide (keepAlive s = "") then defaultKeepAlive
                     else keepAlive s).
Proof.
  unfold nextPageParams.
  destruct (pretty s), (decide (keepAlive s <> "")), (decide (keepAlive s = ""));
    try contradiction; vm_compute; reflexivity.
Qed.

(** The query string of a first page, the page size apart. *)
Lemma Encode_unsized (p : bool) (ttl : string) :
  Encode (Set_ "scroll" ttl
            (if p then Set_ "pretty" "true" (Set_ "search_type" "scan" make_Values)
             else Set_ "search_type" "scan" make_Values))
  = (if p then "pretty=true&" else "")
    +:+ "scroll=" +:+ QueryEscape ttl +:+ "&search_type=scan".
Proof. destruct p; vm_compute; reflexivity. Qed.

(** The query string of a first page with a page size. *)
Lemma Encode_sized (p : bool) (ttl x : string) :
  Encode (Set_ "size" x
            (Set_ "scroll" ttl
               (if p
                then Set_ "pretty" "true" (Set_ "search_type" "scan" make_Values)
                else Set_ "search_type" "scan" make_Values)))
  = (if p then "pretty=true&" else "")
    +:+ "scroll=" +:+ QueryEscape ttl
    +:+ "&search_type=scan&size=" +:+ QueryEscape x.
Proof. destruct p; vm_compute; reflexivity. Qed.

Lemma firstPageParams_layers s :
  firstPageParams s
  = let base :=
      Set_ "scroll" (if decide (keepAlive s = "") then defaultKeepAlive
                     else keepAlive s)
        (if pretty s
         then Set_ "pretty" "true" (Set_ "search_type" "scan" make_Values)
         else Set_ "search_type" "scan" make_Values) in
    match size s with
    | Some n => if 0 <? n then Set_ "size" (Sprintf_d n) base else base
    | None => base
    end.
Proof.
  unfold firstPageParams.
  destruct (pretty s), (decide (keepAlive s <> "")),
    (decide (keepAlive s = "")); try contradiction; reflexivity.
Qed.

(** The string [GetFirstPage] has its request constructed for, when a
    positive page size is set. *)
Lemma firstPageURL_sized s (n : Z) :
  size s = Some n -> 0 < n ->
  firstPageURL s
  = firstPagePath s +:+ "?"
    +:+ ((if pretty s then "pretty=true&" else "")
         +:+ "scroll="
         +:+ QueryEscape (if decide (keepAlive s = "") then defaultKeepAlive
                          else keepAlive s)
         +:+ "&search_type=scan&size=" +:+ Sprintf_d n).
Proof.
  intros Hs Hn. apply Z.ltb_lt in Hn.
  rewrite firstPageURL_query, firstPageParams_layers. cbv zeta.
  rewrite Hs, Hn, Encode_sized, Sprintf_d_unreserved. reflexivity.
Qed.

(** The string [GetFirstPage] has its request constructed for, when no
    positive page size is set. *)
Lemma firstPageURL_unsized s :
  (forall n, size s = Some n -> n <= 0) ->
  firstPageURL s
  = firstPagePath s +:+ "?"
    +:+ ((if pretty s then "pretty=true&" else "")
         +:+ "scroll="
         +:+ QueryEscape (if decide (keepAlive s = "") then defaultKeepAlive
                          else keepAlive s)
         +:+ "&search_type=scan").
Proof.
  intros Hs. rewrite firstPageURL_query, firstPageParams_layers. cbv zeta.
  destruct (size s) as [n|]; [|now rewrite Encode_unsized].
  assert (Hn : (0 <? n) = false) by (apply Z.ltb_ge; auto).
  now rewrite Hn, Encode_unsized.
Qed.

(** The string [GetFirstPage] has its request constructed for, in all
    cases. *)
Lemma firstPageURL_exact_string s :
  firstPageURL s
  = firstPagePath s +:+ "?"
    +:+ ((if pretty s then "pretty=true&" else "")
         +:+ "scroll="
         +:+ QueryEscape (if decide (keepAlive s = "") then defaultKeepAlive
                          else keepAlive s)
         +:+ "&search_type=scan"
         +:+ match size s with
             | Some n => if 0 <? n then "&size=" +:+ Sprintf_d n else ""
             | None => ""
             end).
Proof.
  destruct (size s) as [n|] eqn:Hs; [destruct (0 <? n) eqn:Hn|].
  - rewrite (firstPageURL_sized s n Hs) by now apply Z.ltb_lt. reflexivity.
  - rewrite (firstPageURL_unsized s).
    + destruct (pretty s); reflexivity.
    + intros m Hm. rewrite Hs in Hm. injection Hm as <-. now apply Z.ltb_ge.
  - rewrite (firstPageURL_unsized s).
    + destruct (pretty s); reflexivity.
    + intros m Hm. rewrite Hs in Hm. discriminate.
Qed.

Lemma nextPageURL_string s :
  nextPageURL s
  = "/_search/scroll?"
    +:+ ((if pretty s then "pretty=true&" else "")
         +:+ "scroll="
         +:+ QueryEscape (if decide (keepAlive s = "") then defaultKeepAlive
                          else keepAlive s)).
Proof.
  unfold nextPageURL. rewrite Encode_nextPageParams. reflexivity.
Qed.

(** [GetFirstPage] has its request constructed for [firstPageURL] and
    sends what comes back, with the body set. *)
Lemma GetFirstPage_request_for s w : FirstPageRequestFor s w (firstPageURL s).
Proof.
  unfold FirstPageRequestFor. rewrite (GetFirstPage_run s w). cbv zeta.
  unfold firstPageRequest.
  destruct (NewRequest (client s) "POST" (firstPageURL s)) as [e|req0].
  - eexists. split; [reflexivity|]. intros req Hreq. discriminate.
  - destruct (c_Do (client s) (SetBodyJson req0 (firstPageBody s)) (net w))
      as [[e|res] n'];
      [|destruct (checkResponse res); [|destruct (Decode (RespBody res))]];
      cbn [snd after net trace]; rewrite <- ?app_assoc; cbn [app];
      (eexists; split; [reflexivity|];
       intros req Hreq; injection Hreq as <-;
       rewrite !in_app_iff; destruct (debug s); cbn; tauto).
Qed.

(** With a cursor, [GetNextPage] has its request constructed for
    [nextPageURL] and sends what comes back, with the handle as body. *)
Lemma GetNextPage_request_for s w :
  scrollId s <> "" -> NextPageRequestFor s w (nextPageURL s).
Proof.
  intros Hid. unfold NextPageRequestFor.
  rewrite (GetNextPage_run s w Hid). cbv zeta. unfold nextPageRequest.
  destruct (NewRequest (client s) "POST" (nextPageURL s)) as [e|req0].
  - eexists. split; [reflexivity|]. intros req Hreq. discriminate.
  - destruct (c_Do (client s) (SetBodyString req0 (scrollId s)) (net w))
      as [[e|res] n'];
      [|destruct (checkResponse res); [|destruct (Decode (RespBody res))]];
      cbn [snd after net trace]; rewrite <- ?app_assoc; cbn [app];
      (eexists; split; [reflexivity|];
       intros req Hreq; injection Hreq as <-;
       rewrite !in_app_iff; destruct (debug s); cbn; tauto).
Qed.

(** C6. The [scroll] parameter of both requests. Its value [ttl] is the
    default keep-alive constant when [keepAlive] is the empty string and
    the configured string itself otherwise. Both parameter maps hold
    exactly [ttl] under [scroll], and the URL that each fetch has its
    request constructed for, and sends, carries [scroll=] followed by
    the query-escaped [ttl], which is [ttl] itself when [ttl] is made of
    unreserved characters, as "5m" is. *)
Theorem fetch_scroll_parameter s w :
  let ttl :=
    if decide (keepAlive s = "") then defaultKeepAlive else keepAlive s in
  (keepAlive s = "" -> ttl = defaultKeepAlive)
  /\ (keepAlive s <> "" -> ttl = keepAlive s)
  /\ firstPageParams s !! "scroll" = Some [ttl]
  /\ nextPageParams s !! "scroll" = Some [ttl]
  /\ FirstPageRequestFor s w
       (firstPagePath s +:+ "?"
        +:+ ((if pretty s then "pretty=true&" else "")
             +:+ "scroll=" +:+ QueryEscape ttl
             +:+ "&search_type=scan"
             +:+ match size s with
                 | Some n => if 0 <? n then "&size=" +:+ Sprintf_d n else ""
                 | None => ""
                 end))
  /\ (scrollId s <> "" ->
      NextPageRequestFor s w
        ("/_search/scroll?"
         +:+ ((if pretty s then "pretty=true&" else "")
              +:+ "scroll=" +:+ QueryEscape ttl)))
  /\ (Forall (fun c => shouldEscape c = false) (chars ttl) ->
      QueryEscape ttl = ttl)
  /\ QueryEscape "5m" = "5m".
Proof.
  cbv zeta.
  destruct (scroll_parameter s) as [Hunset [Hset _]].
  split; [|split; [|split; [|split; [|split; [|split; [|split]]]]]].
  - intros Hk. destruct (decide (keepAlive s = "")); [reflexivity | contradiction].
  - intros Hk. destruct (decide (keepAlive s = "")); [contradiction | reflexivity].
  - destruct (decide (keepAlive s = "")) as [Hk|Hk];
      [apply (Hunset Hk) | apply (Hset Hk)].
  - destruct (decide (keepAlive s = "")) as [Hk|Hk];
      [apply (Hunset Hk) | apply (Hset Hk)].
  - assert (Hurl : firstPageURL s = _) by apply (firstPageURL_exact_string s).
    rewrite <- Hurl. apply GetFirstPage_request_for.
  - intros Hid. rewrite <- nextPageURL_string.
    now apply GetNextPage_request_for.
  - apply QueryEscape_unreserved.
  - reflexivity.
Qed.



End Wire.

(* ===================================================================== *)
(** ** More of the service on the canned client *)
(* ===================================================================== *)

Section Exercises.
#[local] Existing Instances Mock.domain Mock.package.

Example nextPageURL_pretty :
  nextPageURL (Pretty true (KeepAlive "1 m" Mock.resumed))
  = "/_search/scroll?pretty=true&scroll=1+m".
Proof. vm_compute. reflexivity. Qed.

Example firstPageURL_pretty :
  firstPageURL (Pretty true Mock.logs)
  = "/logs/_search?pretty=true&scroll=1m&search_type=scan&size=50".
Proof. vm_compute. reflexivity. Qed.

(** X1, on a client that cannot build the request. *)
Lemma GetNextPage_errors_stranded :
  GetNextPage Mock.stranded (Mock.world [Mock.ok "three"])
  = ((None, Some (Foreign "missing protocol scheme")),
     after (Mock.world [Mock.ok "three"])
       (EvNewRequest "POST" "/_search/scroll?scroll=5m")).
Proof.
  refine (proj1 (@GetNextPage_errors Mock.domain Mock.package
                   Mock.stranded (Mock.world [Mock.ok "three"]) _)
                "missing protocol scheme" _).
  - discriminate.
  - reflexivity.
Defined.

(** X2, on a first page answered with a failing status. *)
Lemma GetFirstPage_errors_status :
  fst (GetFirstPage Mock.logs (Mock.world [Mock.failed "three"]))
  = (None, Some (Foreign "unexpected status")).
Proof.
  refine (proj1 (proj2 (proj2 (@GetFirstPage_errors Mock.domain Mock.package
                                 Mock.logs (Mock.world [Mock.failed "three"]))))
                _ (Mock.failed "three") [] "unexpected status" _ _ _);
    reflexivity.
Defined.



(** X10, on a continuation page of three hits. *)
Lemma GetNextPage_page_has_hits_three :
  scrollId Mock.resumed <> ""
  /\ nextPageDecodes Mock.resumed (Mock.world [Mock.ok "three"])
       (Mock.envelope 3 ["1"; "2"; "3"])
  /\ exists hits,
       SearchResult_Hits (Mock.envelope 3 ["1"; "2"; "3"]) = Some hits
       /\ SearchHits_Hits hits <> []
       /\ SearchHits_TotalHits hits <> 0.
Proof.
  apply (@GetNextPage_page_has_hits Mock.domain Mock.package).
  vm_compute. reflexivity.
Defined.

(** X11, on a first page of three hits. *)
Lemma GetFirstPage_page_decoded_three :
  firstPageDecodes Mock.logs (Mock.world [Mock.ok "three"])
    (Mock.envelope 3 ["1"; "2"; "3"]).
Proof.
  apply (@GetFirstPage_page_decoded Mock.domain Mock.package).
  vm_compute. reflexivity.
Defined.

(** X12, on a service that holds no cursor. *)
Lemma GetNextPage_ErrNoScrollId_logs :
  snd (fst (GetNextPage Mock.logs (Mock.world []))) = Some ErrNoScrollId.
Proof.
  apply (proj2 (@GetNextPage_ErrNoScrollId_iff Mock.domain Mock.package
                  Mock.logs (Mock.world []))).
  reflexivity.
Defined.

(** X14, after more configuration of a resumed service. *)
Lemma GetNextPage_reads_resumed :
  GetNextPage (Size 10 (Query_ None (Type_ "tweet" (Index "old" Mock.resumed))))
    (Mock.world [Mock.ok "three"])
  = GetNextPage Mock.resumed (Mock.world [Mock.ok "three"]).
Proof.
  apply (@GetNextPage_reads Mock.domain Mock.package); reflexivity.
Defined.

(** X15, with and without a cursor handle. *)
Lemma GetFirstPage_reads_resumed :
  GetFirstPage Mock.resumed (Mock.world [Mock.ok "three"])
  = GetFirstPage Mock.logs (Mock.world [Mock.ok "three"]).
Proof.
  apply (@GetFirstPage_reads Mock.domain Mock.package); reflexivity.
Defined.

(** X16, with a negative page size on a service that has none. *)
Lemma GetFirstPage_nonpositive_size_fresh :
  firstPageURL (Size (-5) Mock.fresh) = firstPageURL Mock.fresh
  /\ GetFirstPage (Size (-5) Mock.fresh) (Mock.world [Mock.ok "three"])
     = GetFirstPage Mock.fresh (Mock.world [Mock.ok "three"]).
Proof.
  apply (@GetFirstPage_nonpositive_size Mock.domain Mock.package).
  - lia.
  - intros m Hm. discriminate Hm.
Defined.



(** C6, on a continuation with a keep-alive of one minute and on a first
    page with none. *)
Lemma fetch_scroll_parameter_mock :
  NextPageRequestFor Mock.resumed (Mock.world [Mock.ok "three"])
    "/_search/scroll?scroll=1m"
  /\ FirstPageRequestFor Mock.fresh (Mock.world [Mock.ok "three"])
       "//_search?scroll=5m&search_type=scan".
Proof.
  split.
  - refine (proj1 (proj2 (proj2 (proj2 (proj2 (proj2
              (@fetch_scroll_parameter Mock.domain Mock.package
                 Mock.resumed (Mock.world [Mock.ok "three"]))))))) _).
    discriminate.
  - exact (proj1 (proj2 (proj2 (proj2 (proj2
              (@fetch_scroll_parameter Mock.domain Mock.package
                 Mock.fresh (Mock.world [Mock.ok "three"]))))))).
Defined.



End Exercises.
